(** * Md_Collab: the file routes (backend/routes/files.js)

    A shallow embedding of the Express router that serves the shared
    documents: listing, reading, creating, overwriting, saving and deleting
    files, with the version ledger kept inside each file and the cascade
    that removes the Edit and Notification records of a deleted file.

    The route callbacks are [async] functions wrapped in [try]/[catch]: they
    are embedded in a state-and-rejection monad over the database, in which a
    rejected [await] keeps whatever was written before it. *)

From stdpp Require Import gmap strings list fin_maps sorting.

Open Scope string_scope.
Open Scope list_scope.

(** ** Documents *)

(** An ObjectId, in the 24-digit hexadecimal form that [toString()] yields
    and that [req.params.id] carries. *)
Abbreviation ObjectId := string (only parsing).

(** [req.user], as the [authenticate] middleware leaves it. *)
Record User := mkUser {
  u_id : ObjectId;
  role : string;
  u_name : string;
  email : string
}.

(** An element of [file.versions]: the handlers push [{content, updatedBy}]. *)
Record Version := mkVersion {
  v_content : option string;
  updatedBy : ObjectId
}.

(** A File document. [name] and [content] come straight from [req.body] and
    are [None] when the field is [undefined]. The [_id] is the key under
    which the document is stored. *)
Record FileDoc := mkFile {
  name : option string;
  content : option string;
  author : ObjectId;
  status : string;
  versions : list Version;
  updatedAt : N
}.

(** Edit and Notification documents: only the reference to the file matters
    to these routes ([file] and [fileId]). *)
Record Edit := mkEdit {
  e_id : ObjectId;
  e_file : ObjectId
}.

Record Notification := mkNotification {
  n_id : ObjectId;
  n_fileId : ObjectId
}.

(** The collections the router touches. *)
Record DB := mkDB {
  files : gmap ObjectId FileDoc;
  edits : list Edit;
  notifications : list Notification;
  users : gmap ObjectId User
}.

Definition set_files (m : gmap ObjectId FileDoc) (db : DB) : DB :=
  mkDB m (edits db) (notifications db) (users db).

Definition set_edits (l : list Edit) (db : DB) : DB :=
  mkDB (files db) l (notifications db) (users db).

Definition set_notifications (l : list Notification) (db : DB) : DB :=
  mkDB (files db) (edits db) l (users db).

(** In-memory mutations of a loaded document. *)
Definition push_version (v : Version) (f : FileDoc) : FileDoc :=
  mkFile (name f) (content f) (author f) (status f) (versions f ++ [v]) (updatedAt f).

Definition set_content (c : option string) (f : FileDoc) : FileDoc :=
  mkFile (name f) c (author f) (status f) (versions f) (updatedAt f).

Definition set_name (n : option string) (f : FileDoc) : FileDoc :=
  mkFile n (content f) (author f) (status f) (versions f) (updatedAt f).

Definition set_updatedAt (t : N) (f : FileDoc) : FileDoc :=
  mkFile (name f) (content f) (author f) (status f) (versions f) t.

(** A document after [populate('author', 'name email')]: the author
    reference is resolved to the user's name and email, or to [null]. *)
Record PopulatedFile := mkPopulated {
  pf_id : ObjectId;
  pf_doc : FileDoc;
  pf_author : option (string * string)
}.

(** ** Requests and responses *)

(** The two fields the handlers destructure from [req.body]. *)
Record ReqBody := mkBody {
  body_name : option string;
  body_content : option string
}.

Inductive Json :=
  | JFiles (l : list PopulatedFile)
  | JFile (f : PopulatedFile)
  | JMessage (m : string).

Record Response := mkResponse {
  statusCode : N;
  body : Json
}.

(** [res.status(c).json(b)] and [res.json(b)]. *)
Definition respond (c : N) (b : Json) : Response := mkResponse c b.
Definition json (b : Json) : Response := respond 200 b.

(** ** What a request meets outside the handler *)

(** The calls into the database layer that a handler awaits. *)
Inductive Op :=
  | OpFind
  | OpSave
  | OpPopulate
  | OpDeleteEdits
  | OpDeleteNotifications
  | OpDeleteFile.

Global Instance Op_eq_dec : EqDecision Op.
Proof. solve_decision. Defined.

(** Per request: the clock, the ObjectId that [new File] draws, and which of
    the awaited calls reject (connection loss, cast errors, ...). Each
    handler awaits each kind of call at most once. *)
Record Env := mkEnv {
  now : N;
  fresh_id : ObjectId;
  fails : Op → bool
}.

Definition no_faults : Op → bool := λ _, false.

(** ** The async monad of the handlers *)

Inductive Outcome (A : Type) :=
  | Resolved (a : A)
  | Rejected.
Arguments Resolved {A} a.
Arguments Rejected {A}.

Definition Async (A : Type) : Type := DB → Outcome A * DB.

Definition Handler : Type := DB → Response * DB.

Definition ret {A} (a : A) : Async A := λ db, (Resolved a, db).

Definition bind {A B} (m : Async A) (k : A → Async B) : Async B :=
  λ db, match m db with
        | (Resolved a, db') => k a db'
        | (Rejected, db') => (Rejected, db')
        end.

Notation "'const' x := 'await' m ; k" := (bind m (λ x, k))
  (at level 10, x name, m at level 100, k at level 200,
   format "'const'  x  :=  'await'  m ;  '//' k").
Notation "'await' m ; k" := (bind m (λ _, k))
  (at level 10, m at level 100, k at level 200,
   format "'await'  m ;  '//' k").

(** [try { ... } catch (error) { console.error(...); res.status(500).json(...) }] *)
Definition try_catch (m : Async Response) (r : Response) : Handler :=
  λ db, match m db with
        | (Resolved a, db') => (a, db')
        | (Rejected, db') => (r, db')
        end.

(** [Promise.all([p, q])]: both calls are issued; the result rejects when
    either does, and a call that went through is not undone. The two calls
    made here write to different collections, so their order is immaterial. *)
Definition Promise_all {A B} (p : Async A) (q : Async B) : Async (A * B) :=
  λ db, match p db with
        | (ra, db1) =>
          match q db1 with
          | (rb, db2) =>
            match ra, rb with
            | Resolved a, Resolved b => (Resolved (a, b), db2)
            | _, _ => (Rejected, db2)
            end
          end
        end.

(** ** The model layer

    Modelled from the spec: models/File.js, models/Edit.js and
    models/Notification.js are not among the sources. The spec assumes "a
    durable key-addressed store with atomic single-document
    read-modify-write", lists by [updatedAt] descending, refreshes
    [updatedAt] on every mutation and deletes dependents in bulk by
    reference. What the File schema accepts is left open: it is the
    parameter [validate] below. *)

(** [.sort({ updatedAt: -1 })] *)
Definition newer_first (a b : ObjectId * FileDoc) : Prop :=
  (updatedAt b.2 ≤ updatedAt a.2)%N.

Global Instance newer_first_dec : RelDecision newer_first.
Proof. intros a b. unfold newer_first. apply _. Defined.

(** [.populate('author', 'name email')] on one document. *)
Definition populate (db : DB) (d : ObjectId * FileDoc) : PopulatedFile :=
  mkPopulated d.1 d.2 ((λ u, (u_name u, email u)) <$> users db !! author d.2).

(** [File.find(cond).populate(...).sort({ updatedAt: -1 })], one awaited
    query. *)
Definition File_find (env : Env) (cond : FileDoc → bool) : Async (list PopulatedFile) :=
  λ db, if fails env OpFind then (Rejected, db)
        else (Resolved (populate db <$>
                merge_sort newer_first
                  (map_to_list (filter (λ d, cond d.2 = true) (files db)))), db).

(** [File.findById(id)]: the document, or [null]. *)
Definition File_findById (env : Env) (id : ObjectId) : Async (option FileDoc) :=
  λ db, if fails env OpFind then (Rejected, db)
        else (Resolved (files db !! id), db).

(** [file.populate('author', 'name email')] on a loaded document. *)
Definition doc_populate (env : Env) (id : ObjectId) (f : FileDoc) : Async PopulatedFile :=
  λ db, if fails env OpPopulate then (Rejected, db)
        else (Resolved (populate db (id, f)), db).

(** [Edit.deleteMany({ file: id })] *)
Definition Edit_deleteMany (env : Env) (id : ObjectId) : Async unit :=
  λ db, if fails env OpDeleteEdits then (Rejected, db)
        else (Resolved (), set_edits (filter (λ e, e_file e ≠ id) (edits db)) db).

(** [Notification.deleteMany({ fileId: id })] *)
Definition Notification_deleteMany (env : Env) (id : ObjectId) : Async unit :=
  λ db, if fails env OpDeleteNotifications then (Rejected, db)
        else (Resolved (),
              set_notifications (filter (λ n, n_fileId n ≠ id) (notifications db)) db).

(** [File.findByIdAndDelete(id)] *)
Definition File_findByIdAndDelete (env : Env) (id : ObjectId) : Async unit :=
  λ db, if fails env OpDeleteFile then (Rejected, db)
        else (Resolved (), set_files (delete id (files db)) db).

(** Modelled from the spec: middleware/auth.js is not among the sources.
    The gate answers "does role R belong to allowed-set S" before the
    handler runs, and a role outside the set is turned away as Forbidden. *)
Definition authorize (roles : list string) (user : User) (h : Handler) : Handler :=
  if bool_decide (role user ∈ roles) then h
  else λ db, (respond 403 (JMessage "Forbidden"), db).

Section Routes.

(** The validators of the File schema (required fields, enumerations). *)
Variable validate : FileDoc → bool.

(** [file.save()]: validation, then the write, which stamps [updatedAt].
    A new document is inserted and is refused when its [_id] is taken; a
    loaded one is written back under its [_id]. *)
Definition doc_save (env : Env) (isNew : bool) (id : ObjectId) (f : FileDoc)
  : Async FileDoc :=
  λ db, if fails env OpSave || negb (validate f) then (Rejected, db)
        else if isNew && bool_decide (is_Some (files db !! id)) then (Rejected, db)
        else let f' := set_updatedAt (now env) f in
             (Resolved f', set_files (<[id := f']> (files db)) db).

(** *** The handlers, in the order of the source *)

(** [router.get('/')] *)
Definition get_root_handler (env : Env) (user : User) : Handler :=
  try_catch
    (const fs := await File_find env (λ f, bool_decide (status f = "approved"));
     ret (json (JFiles fs)))
    (respond 500 (JMessage "Failed to fetch files")).

(** [router.get('/my/files')] *)
Definition get_my_files_handler (env : Env) (user : User) : Handler :=
  try_catch
    (const fs := await File_find env (λ f, bool_decide (author f = u_id user));
     ret (json (JFiles fs)))
    (respond 500 (JMessage "Failed to fetch files")).

(** [router.get('/:id')] *)
Definition get_id_handler (env : Env) (user : User) (id : ObjectId) : Handler :=
  try_catch
    (const found := await File_findById env id;
     match found with
     | None => ret (respond 404 (JMessage "File not found"))
     | Some file => λ db, ret (json (JFile (populate db (id, file)))) db
     end)
    (respond 500 (JMessage "Failed to fetch file")).

(** [new File({ name, content, author, status: 'approved', versions: [...] })];
    [updatedAt] is unset until the first save. *)
Definition new_File (user : User) (b : ReqBody) : FileDoc :=
  mkFile (body_name b) (body_content b) (u_id user) "approved"
         [mkVersion (body_content b) (u_id user)] 0.

(** [router.post('/')] *)
Definition post_root_handler (env : Env) (user : User) (b : ReqBody) : Handler :=
  try_catch
    (const saved := await doc_save env true (fresh_id env) (new_File user b);
     const populated := await doc_populate env (fresh_id env) saved;
     ret (respond 201 (JFile populated)))
    (respond 500 (JMessage "Failed to create file")).

(** [file.versions.push({ content: file.content, updatedBy: req.user._id })] *)
Definition snapshot (user : User) (file : FileDoc) : FileDoc :=
  push_version (mkVersion (content file) (u_id user)) file.

(** [router.put('/:id')] *)
Definition put_id_handler (env : Env) (user : User) (id : ObjectId) (b : ReqBody)
  : Handler :=
  try_catch
    (const found := await File_findById env id;
     match found with
     | None => ret (respond 404 (JMessage "File not found"))
     | Some file =>
       let file := snapshot user file in
       let file := set_content (body_content b) file in
       const saved := await doc_save env false id file;
       const populated := await doc_populate env id saved;
       ret (json (JFile populated))
     end)
    (respond 500 (JMessage "Failed to update file")).

(** [if (name) file.name = name]: an absent or empty name is falsy. *)
Definition truthy (s : option string) : bool :=
  match s with
  | None => false
  | Some s => negb (bool_decide (s = ""))
  end.

(** [router.put('/:id/save')] *)
Definition put_id_save_handler (env : Env) (user : User) (id : ObjectId) (b : ReqBody)
  : Handler :=
  try_catch
    (const found := await File_findById env id;
     match found with
     | None => ret (respond 404 (JMessage "File not found"))
     | Some file =>
       if negb (bool_decide (author file = u_id user))
          && negb (bool_decide (role user = "admin"))
       then ret (respond 403 (JMessage "You can only save your own files"))
       else
         let file := snapshot user file in
         let file := set_content (body_content b) file in
         let file := if truthy (body_name b) then set_name (body_name b) file else file in
         const saved := await doc_save env false id file;
         const populated := await doc_populate env id saved;
         ret (json (JFile populated))
     end)
    (respond 500 (JMessage "Failed to save file")).

(** [router.delete('/:id')] *)
Definition delete_id_handler (env : Env) (user : User) (id : ObjectId) : Handler :=
  try_catch
    (const found := await File_findById env id;
     match found with
     | None => ret (respond 404 (JMessage "File not found"))
     | Some _ =>
       await Promise_all (Edit_deleteMany env id) (Notification_deleteMany env id);
       await File_findByIdAndDelete env id;
       ret (json (JMessage "File deleted successfully"))
     end)
    (respond 500 (JMessage "Failed to delete file")).

(** *** The routes: the role gate in front of each handler *)

Inductive Request :=
  | GET_root
  | GET_my_files
  | GET_id (id : ObjectId)
  | POST_root (b : ReqBody)
  | PUT_id (id : ObjectId) (b : ReqBody)
  | PUT_id_save (id : ObjectId) (b : ReqBody)
  | DELETE_id (id : ObjectId).

Definition router (env : Env) (user : User) (req : Request) : Handler :=
  match req with
  | GET_root => get_root_handler env user
  | GET_my_files => get_my_files_handler env user
  | GET_id id => get_id_handler env user id
  | POST_root b => authorize ["editor"; "admin"] user (post_root_handler env user b)
  | PUT_id id b => authorize ["admin"] user (put_id_handler env user id b)
  | PUT_id_save id b =>
    authorize ["editor"; "admin"] user (put_id_save_handler env user id b)
  | DELETE_id id => authorize ["editor"; "admin"] user (delete_id_handler env user id)
  end.

(** Requests served one after the other. *)
Fixpoint serve (reqs : list (Env * User * Request)) (db : DB) : list Response * DB :=
  match reqs with
  | [] => ([], db)
  | (env, user, req) :: rest =>
    let '(r, db1) := router env user req db in
    let '(rs, db2) := serve rest db1 in
    (r :: rs, db2)
  end.

End Routes.

(** ** The documents the handlers write

    Names for what each mutating route hands to [file.save()] and for what
    is then stored. *)

(** The document that [router.put('/:id/save')] hands to [file.save()], and
    the one that is then stored. *)
Definition edited_doc (user : User) (b : ReqBody) (f : FileDoc) : FileDoc :=
  let file := set_content (body_content b) (snapshot user f) in
  if truthy (body_name b) then set_name (body_name b) file else file.

Definition saved_doc (env : Env) (user : User) (b : ReqBody) (f : FileDoc) : FileDoc :=
  set_updatedAt (now env) (edited_doc user b f).

(** The document that [router.put('/:id')] hands to [file.save()], and the
    one that is then stored. *)
Definition forced_doc (user : User) (b : ReqBody) (f : FileDoc) : FileDoc :=
  set_content (body_content b) (snapshot user f).

Definition overwritten_doc (env : Env) (user : User) (b : ReqBody) (f : FileDoc) : FileDoc :=
  set_updatedAt (now env) (forced_doc user b f).

(** The document that [router.post('/')] inserts. *)
Definition created_doc (env : Env) (user : User) (b : ReqBody) : FileDoc :=
  set_updatedAt (now env) (new_File user b).

(** ** Runs of saves *)

(** The k-th save of a run, as a request: who saves, when, under which
    optional new name, and the new content. *)
Definition SaveStep : Type := Env * User * option string * string.

Definition step_content (s : SaveStep) : string := s.2.

Definition save_request (id : ObjectId) (s : SaveStep) : Env * User * Request :=
  let '(env, user, new_name, c) := s in
  (env, user, PUT_id_save id (mkBody new_name (Some c))).

(** ** Reading responses *)

(** The files a listing response carries. *)
Definition listed (r : Response) : list PopulatedFile :=
  match body r with
  | JFiles l => l
  | _ => []
  end.

(** A create request in which a required field is [undefined]. *)
Definition missing_required (b : ReqBody) : Prop :=
  body_name b = None ∨ body_content b = None.

(** What the [catch] of [router.post('/')] answers to any rejection. *)
Definition create_store_error : Response :=
  respond 500 (JMessage "Failed to create file").

(** A failure of its own kind: not a 201, and not the answer given to a
    store error. *)
Definition validation_failure (r : Response) : Prop :=
  statusCode r ≠ 201%N ∧ r ≠ create_store_error.

(** C8 as the spec words it: a create without name or content fails with a
    validation error of its own kind and stores nothing. *)
Definition create_validates (validate : FileDoc → bool) env u b db : Prop :=
  missing_required b →
  validation_failure (router validate env u (POST_root b) db).1
  ∧ files (router validate env u (POST_root b) db).2 = files db.

(** ** Sample data *)

Definition id_alice : ObjectId := "65f0a1000000000000000001".
Definition id_bob : ObjectId := "65f0a1000000000000000002".
Definition id_root : ObjectId := "65f0a1000000000000000003".
Definition id_f1 : ObjectId := "65f0b2000000000000000011".
Definition id_f2 : ObjectId := "65f0b2000000000000000012".
Definition id_f3 : ObjectId := "65f0b2000000000000000013".
Definition id_f9 : ObjectId := "65f0b2000000000000000019".
Definition id_spare : ObjectId := "65f0b20000000000000000ff".
Definition id_absent : ObjectId := "65f0b2000000000000000abc".
Definition id_e1 : ObjectId := "65f0c3000000000000000021".
Definition id_e2 : ObjectId := "65f0c3000000000000000022".
Definition id_e3 : ObjectId := "65f0c3000000000000000023".
Definition id_n1 : ObjectId := "65f0d4000000000000000031".
Definition id_n2 : ObjectId := "65f0d4000000000000000032".

Definition alice : User := mkUser id_alice "editor" "Alice" "alice@example.org".
Definition bob : User := mkUser id_bob "editor" "Bob" "bob@example.org".
Definition root : User := mkUser id_root "admin" "Root" "root@example.org".

Definition people : gmap ObjectId User :=
  {[ id_alice := alice; id_bob := bob; id_root := root ]}.

Definition empty_db : DB := mkDB ∅ [] [] people.

Definition hello_doc : FileDoc :=
  mkFile (Some "a.txt") (Some "hello") id_alice "approved" [mkVersion (Some "hello") id_alice] 10.

Definition draft_doc : FileDoc :=
  mkFile (Some "b.txt") (Some "wip") id_bob "draft" [mkVersion (Some "wip") id_bob] 20.

(** Two files, with dependents of the first one and of the second one. *)
Definition sample_db : DB :=
  mkDB {[ id_f1 := hello_doc; id_f2 := draft_doc ]}
       [mkEdit id_e1 id_f1; mkEdit id_e2 id_f2; mkEdit id_e3 id_f1]
       [mkNotification id_n1 id_f1; mkNotification id_n2 id_f2]
       people.

Definition quiet (t : N) (id : ObjectId) : Env := mkEnv t id no_faults.

Definition faulty (t : N) (id : ObjectId) (ops : list Op) : Env :=
  mkEnv t id (λ op, bool_decide (op ∈ ops)).

Definition accept_all : FileDoc → bool := λ _, true.

(** A schema in which [name] and [content] are required. *)
Definition required_fields : FileDoc → bool :=
  λ f, bool_decide (is_Some (name f)) && bool_decide (is_Some (content f)).

(** ** Ids that are not stored *)

(** A path id that is no ObjectId, as in a request for [/not-an-id]. *)
Definition id_malformed : ObjectId := "not-an-id".

(** What a request for such an id meets: the cast of the path id inside
    [File.findById] rejects, whatever the collection holds. *)
Definition cast_error (t : N) : Env := faulty t id_spare [OpFind].

(** C7 as the spec words it: for an id that is not stored, reading,
    force-updating, saving and deleting each answer 404 and leave the
    database as it was. *)
Definition absent_answers_404 (validate : FileDoc → bool) env u id b db : Prop :=
  files db !! id = None →
  router validate env u (GET_id id) db
  = (respond 404 (JMessage "File not found"), db)
  ∧ (role u = "admin" →
     router validate env u (PUT_id id b) db
     = (respond 404 (JMessage "File not found"), db))
  ∧ (role u = "editor" ∨ role u = "admin" →
     router validate env u (PUT_id_save id b) db
     = (respond 404 (JMessage "File not found"), db))
  ∧ (role u = "editor" ∨ role u = "admin" →
     router validate env u (DELETE_id id) db
     = (respond 404 (JMessage "File not found"), db)).

(** ** Reading requests and stored files *)

(** The routes that only read. *)
Definition is_read (req : Request) : bool :=
  match req with
  | GET_root | GET_my_files | GET_id _ => true
  | _ => false
  end.

(** The file a request names in its path ([req.params.id]). *)
Definition target (req : Request) : option ObjectId :=
  match req with
  | GET_id i | PUT_id i _ | PUT_id_save i _ | DELETE_id i => Some i
  | _ => None
  end.

(** The roles each route lists in front of its handler. *)
Definition admitted (user : User) (req : Request) : Prop :=
  match req with
  | GET_root | GET_my_files | GET_id _ => True
  | PUT_id _ _ => role user = "admin"
  | POST_root _ | PUT_id_save _ _ | DELETE_id _ =>
    role user = "editor" ∨ role user = "admin"
  end.

(** Who performs a save of a run. *)
Definition step_user (s : SaveStep) : User := s.1.1.2.

(** A file as [router.post('/')] founds it and as the other routes keep it:
    approved, with a ledger whose first entry is by the author. *)
Definition founded (f : FileDoc) : Prop :=
  status f = "approved"
  ∧ ∃ v vs, versions f = v :: vs ∧ updatedBy v = author f.

(** The order of a listing response: most recently updated first. *)
Definition listed_newer_first (a b : PopulatedFile) : Prop :=
  (updatedAt (pf_doc b) ≤ updatedAt (pf_doc a))%N.

(** * Properties *)

(** ** Reading the handlers step by step *)

Ltac unfold_router :=
  unfold router, authorize, get_root_handler, get_my_files_handler,
    get_id_handler, post_root_handler, put_id_handler, put_id_save_handler,
    delete_id_handler, try_catch, bind, ret, Promise_all, File_find,
    File_findById, doc_save, doc_populate, Edit_deleteMany,
    Notification_deleteMany, File_findByIdAndDelete in *.

Ltac case_tests :=
  repeat match goal with
         | H : context [if ?b then _ else _] |- _ => destruct b eqn:?; simpl in H
         | H : context [match ?o with Some _ => _ | None => _ end] |- _ =>
           destruct o eqn:?; simpl in H
         | H : (_, _) = (_, _) |- _ => inversion H; subst; clear H
         end.

Ltac bool_hyps :=
  repeat match goal with
         | H : bool_decide _ = true |- _ => apply bool_decide_eq_true in H
         | H : bool_decide _ = false |- _ => apply bool_decide_eq_false in H
         | H : negb _ = true |- _ => apply negb_true_iff in H
         | H : negb _ = false |- _ => apply negb_false_iff in H
         | H : _ && _ = true |- _ => apply andb_true_iff in H as [? ?]
         | H : _ || _ = false |- _ => apply orb_false_iff in H as [? ?]
         end.

Lemma saved_doc_versions env u b f :
  versions (saved_doc env u b f) = versions f ++ [mkVersion (content f) (u_id u)].
Proof. unfold saved_doc, edited_doc. by destruct (truthy (body_name b)). Qed.

Lemma saved_doc_content env u b f :
  content (saved_doc env u b f) = body_content b.
Proof. unfold saved_doc, edited_doc. by destruct (truthy (body_name b)). Qed.

Lemma saved_doc_author env u b f : author (saved_doc env u b f) = author f.
Proof. unfold saved_doc, edited_doc. by destruct (truthy (body_name b)). Qed.

Lemma saved_doc_status env u b f : status (saved_doc env u b f) = status f.
Proof. unfold saved_doc, edited_doc. by destruct (truthy (body_name b)). Qed.

Section Inversions.

Variable validate : FileDoc → bool.

(** A 201 from the create route means the founding document is stored. *)
Lemma post_root_201 env u b db r db' :
  router validate env u (POST_root b) db = (r, db') →
  statusCode r = 201%N →
  files db !! fresh_id env = None
  ∧ files db' = <[fresh_id env := created_doc env u b]> (files db).
Proof.
  intros Hrun Hcode. unfold_router. case_tests; simpl in *; try discriminate.
  bool_hyps. split; [|done].
  destruct (files db !! fresh_id env) eqn:E; [|done].
  exfalso. eauto.
Qed.

(** A 200 from the save route means the file was there, the caller was its
    author or an admin, and exactly the snapshot-then-overwrite was
    written back. *)
Lemma put_id_save_200 env u id b db r db' :
  router validate env u (PUT_id_save id b) db = (r, db') →
  statusCode r = 200%N →
  ∃ f, files db !! id = Some f
       ∧ (author f = u_id u ∨ role u = "admin")
       ∧ files db' = <[id := saved_doc env u b f]> (files db).
Proof.
  intros Hrun Hcode. unfold_router. case_tests; simpl in *; try discriminate.
  all: eexists; split; [done|]; split;
    [| unfold saved_doc, edited_doc;
       match goal with H : truthy _ = _ |- _ => by rewrite H end].
  all: match goal with
       | H : _ && _ = false |- _ => apply andb_false_iff in H as [H|H]
       end; bool_hyps; auto.
Qed.

End Inversions.

(** ** The version ledger under a run of saves *)

Section Ledger.

Variable validate : FileDoc → bool.

Lemma serve_saves id (saves : list SaveStep) : ∀ db f rs db',
  files db !! id = Some f →
  serve validate (save_request id <$> saves) db = (rs, db') →
  Forall (λ r, statusCode r = 200%N) rs →
  ∃ f', files db' !! id = Some f'
        ∧ v_content <$> versions f' =
            (v_content <$> versions f)
              ++ take (length saves) (content f :: (Some ∘ step_content <$> saves))
        ∧ content f' = default (content f) (last (Some ∘ step_content <$> saves)).
Proof.
  induction saves as [|[[[env u] nm] c] saves IH]; intros db f rs db' Hf Hrun Hall.
  - simpl in Hrun. inversion Hrun; subst. exists f.
    split; [done|]. split; [|done]. simpl. by rewrite app_nil_r.
  - change (serve validate (save_request id <$> (env, u, nm, c) :: saves) db)
      with (let '(r, db1) :=
              router validate env u (PUT_id_save id (mkBody nm (Some c))) db in
            let '(rs, db2) := serve validate (save_request id <$> saves) db1 in
            (r :: rs, db2)) in Hrun.
    destruct (router validate env u (PUT_id_save id (mkBody nm (Some c))) db)
      as [r db1] eqn:Hstep.
    destruct (serve validate (save_request id <$> saves) db1) as [rs' db2] eqn:Hrest.
    inversion Hrun; subst. apply Forall_cons in Hall as [Hr Hrs].
    destruct (put_id_save_200 validate _ _ _ _ _ _ _ Hstep Hr) as (f0 & Hf0 & _ & Hdb1).
    rewrite Hf in Hf0. inversion Hf0; subst f0.
    assert (Hf1 : files db1 !! id = Some (saved_doc env u (mkBody nm (Some c)) f))
      by (rewrite Hdb1; apply lookup_insert_eq).
    destruct (IH _ _ _ _ Hf1 Hrest Hrs) as (f' & Hf' & Hvs & Hc).
    exists f'. split; [done|]. split.
    + rewrite Hvs, saved_doc_versions, saved_doc_content, fmap_app. simpl.
      by rewrite <- app_assoc.
    + rewrite Hc, saved_doc_content, fmap_cons, last_cons.
      by destruct (last (Some ∘ step_content <$> saves)).
Qed.

End Ledger.

(** ** Create, then save N times *)

(** C1. A file created with content C0 and then saved N times with contents
    C1..CN, every request succeeding, has N+1 ledger entries: entry 0 is the
    founding snapshot with content C0, entry k (1 <= k <= N) holds C(k-1),
    the content the k-th save replaced, and the current content is CN. *)
Theorem versioning_ledger (validate : FileDoc → bool) env0 u0 nm0 (C0 : string)
    db0 r0 db1 (saves : list SaveStep) rs dbN :
  router validate env0 u0 (POST_root (mkBody nm0 (Some C0))) db0 = (r0, db1) →
  statusCode r0 = 201%N →
  serve validate (save_request (fresh_id env0) <$> saves) db1 = (rs, dbN) →
  Forall (λ r, statusCode r = 200%N) rs →
  ∃ f, files dbN !! fresh_id env0 = Some f
       ∧ length (versions f) = S (length saves)
       ∧ v_content <$> versions f !! 0 = Some (Some C0)
       ∧ (∀ k : nat, (1 ≤ k ≤ length saves)%nat →
            v_content <$> versions f !! k = Some <$> (C0 :: (step_content <$> saves)) !! (k - 1))
       ∧ content f = last (C0 :: (step_content <$> saves)).
Proof.
  intros Hcreate H201 Hrun Hall.
  destruct (post_root_201 _ _ _ _ _ _ _ Hcreate H201) as [_ Hdb1].
  assert (Hf0 : files db1 !! fresh_id env0
                = Some (created_doc env0 u0 (mkBody nm0 (Some C0))))
    by (rewrite Hdb1; apply lookup_insert_eq).
  destruct (serve_saves validate _ _ _ _ _ _ Hf0 Hrun Hall) as (f & Hf & Hvs & Hc).
  simpl in Hvs, Hc.
  assert (Hpre : Some ∘ step_content <$> saves = Some <$> (step_content <$> saves))
    by apply list_fmap_compose.
  exists f. split; [done|]. repeat split.
  - rewrite <- (length_fmap v_content), Hvs. simpl.
    rewrite length_take. simpl. rewrite length_fmap. lia.
  - by rewrite <- list_lookup_fmap, Hvs.
  - intros k [Hk1 HkN]. rewrite <- !list_lookup_fmap, Hvs.
    destruct k as [|k]; [lia|]. simpl. replace (k - 0) with k by lia.
    rewrite lookup_take_lt by lia. by rewrite Hpre.
  - rewrite Hc, last_cons, Hpre, fmap_last.
    by destruct (last (step_content <$> saves)).
Qed.

Lemma versioning_ledger_witness :
  ∃ f, files (serve accept_all
                [save_request id_f1 (quiet 11 id_spare, alice, None, "world");
                 save_request id_f1 (quiet 12 id_spare, root, Some "b.txt", "again")]
                (router accept_all (quiet 10 id_f1) alice
                   (POST_root (mkBody (Some "a.txt") (Some "hello"))) empty_db).2).2
         !! id_f1 = Some f
       ∧ length (versions f) = 3
       ∧ v_content <$> versions f !! 0 = Some (Some "hello")
       ∧ (∀ k : nat, (1 ≤ k ≤ 2)%nat →
            v_content <$> versions f !! k = Some <$> ["hello"; "world"; "again"] !! (k - 1))
       ∧ content f = Some "again".
Proof.
  apply (versioning_ledger accept_all (quiet 10 id_f1) alice (Some "a.txt") "hello"
           empty_db
           (router accept_all (quiet 10 id_f1) alice
              (POST_root (mkBody (Some "a.txt") (Some "hello"))) empty_db).1
           (router accept_all (quiet 10 id_f1) alice
              (POST_root (mkBody (Some "a.txt") (Some "hello"))) empty_db).2
           [(quiet 11 id_spare, alice, None, "world");
            (quiet 12 id_spare, root, Some "b.txt", "again")]
           [json (JFile (mkPopulated id_f1
              (mkFile (Some "a.txt") (Some "world") id_alice "approved"
                 [mkVersion (Some "hello") id_alice; mkVersion (Some "hello") id_alice] 11)
              (Some ("Alice", "alice@example.org"))));
            json (JFile (mkPopulated id_f1
              (mkFile (Some "b.txt") (Some "again") id_alice "approved"
                 [mkVersion (Some "hello") id_alice; mkVersion (Some "hello") id_alice;
                  mkVersion (Some "world") id_root] 12)
              (Some ("Alice", "alice@example.org"))))]).
  - apply surjective_pairing.
  - reflexivity.
  - vm_compute. reflexivity.
  - repeat constructor.
Defined.

(** ** The role gate *)

Lemma gate_editor_admin u h :
  role u = "editor" ∨ role u = "admin" → authorize ["editor"; "admin"] u h = h.
Proof.
  intros Hr. unfold authorize. rewrite bool_decide_eq_true_2; [done|].
  destruct Hr as [-> | ->]; repeat constructor.
Qed.

Lemma gate_admin u h : role u = "admin" → authorize ["admin"] u h = h.
Proof.
  intros Hr. unfold authorize. rewrite bool_decide_eq_true_2; [done|].
  rewrite Hr. constructor.
Qed.

(** C2. On an existing file, an editor who is not the author is refused
    with 403 and nothing is written; an admin's save goes through whoever
    the author is, as long as the store takes the write. *)
Theorem save_ownership (validate : FileDoc → bool) env u id b db f :
  files db !! id = Some f →
  fails env OpFind = false →
  (role u = "editor" → u_id u ≠ author f →
     router validate env u (PUT_id_save id b) db
     = (respond 403 (JMessage "You can only save your own files"), db))
  ∧ (role u = "admin" →
     fails env OpSave = false → fails env OpPopulate = false →
     validate (edited_doc u b f) = true →
     router validate env u (PUT_id_save id b) db
     = (json (JFile (populate db (id, saved_doc env u b f))),
        set_files (<[id := saved_doc env u b f]> (files db)) db)).
Proof.
  intros Hf Hfind. split.
  - intros Hrole Hne. unfold router. rewrite gate_editor_admin by auto.
    unfold put_id_save_handler, try_catch, bind, File_findById.
    rewrite Hfind, Hf.
    rewrite (bool_decide_eq_false_2 (author f = u_id u)) by congruence.
    rewrite (bool_decide_eq_false_2 (role u = "admin")) by (rewrite Hrole; discriminate).
    reflexivity.
  - intros Hrole Hsave Hpop Hvalid. unfold router. rewrite gate_editor_admin by auto.
    unfold put_id_save_handler, try_catch, bind, File_findById.
    rewrite Hfind, Hf.
    rewrite (bool_decide_eq_true_2 (role u = "admin")) by done.
    rewrite andb_false_r.
    unfold doc_save, doc_populate, ret. fold (edited_doc u b f).
    rewrite Hsave, Hvalid, Hpop. reflexivity.
Qed.

Lemma save_ownership_witness :
  router accept_all (quiet 30 id_spare) bob
    (PUT_id_save id_f1 (mkBody None (Some "mine now"))) sample_db
  = (respond 403 (JMessage "You can only save your own files"), sample_db)
  ∧ router accept_all (quiet 30 id_spare) root
      (PUT_id_save id_f1 (mkBody None (Some "moderated"))) sample_db
    = (json (JFile (populate sample_db
                      (id_f1, saved_doc (quiet 30 id_spare) root
                               (mkBody None (Some "moderated")) hello_doc))),
       set_files (<[id_f1 := saved_doc (quiet 30 id_spare) root
                              (mkBody None (Some "moderated")) hello_doc]>
                    (files sample_db)) sample_db).
Proof.
  split.
  - apply (save_ownership accept_all (quiet 30 id_spare) bob id_f1
             (mkBody None (Some "mine now")) sample_db hello_doc);
      [reflexivity | reflexivity | reflexivity | discriminate].
  - apply (save_ownership accept_all (quiet 30 id_spare) root id_f1
             (mkBody None (Some "moderated")) sample_db hello_doc);
      reflexivity.
Defined.

(** ** Deletion and its cascade *)

Lemma filter_edits_clean id (l : list Edit) e :
  e ∈ filter (λ e, e_file e ≠ id) l → e_file e ≠ id.
Proof. intros H. by apply list_elem_of_filter in H as [? _]. Qed.

Lemma filter_notifications_clean id (l : list Notification) n :
  n ∈ filter (λ n, n_fileId n ≠ id) l → n_fileId n ≠ id.
Proof. intros H. by apply list_elem_of_filter in H as [? _]. Qed.

(** C3. After a delete that answers 200 no Edit and no Notification refers
    to the file any more (and the file is gone). When the cleanup of either
    kind of dependent rejects, the delete answers 500 and the file is still
    stored as it was: the removal of the file is never reached. *)
Theorem cascade_integrity (validate : FileDoc → bool) env u id db r db' :
  router validate env u (DELETE_id id) db = (r, db') →
  (statusCode r = 200%N →
     (∀ e, e ∈ edits db' → e_file e ≠ id)
     ∧ (∀ n, n ∈ notifications db' → n_fileId n ≠ id)
     ∧ files db' !! id = None)
  ∧ (∀ f, role u = "editor" ∨ role u = "admin" →
       fails env OpFind = false →
       files db !! id = Some f →
       fails env OpDeleteEdits = true ∨ fails env OpDeleteNotifications = true →
       r = respond 500 (JMessage "Failed to delete file")
       ∧ files db' = files db ∧ files db' !! id = Some f).
Proof.
  intros Hrun. split.
  - intros Hcode. unfold_router. case_tests; simpl in *; try discriminate.
    split; [|split].
    + intros e. apply filter_edits_clean.
    + intros n. apply filter_notifications_clean.
    + apply lookup_delete_eq.
  - intros f Hrole Hfind Hf Hclean. unfold router in Hrun.
    rewrite gate_editor_admin in Hrun by done.
    unfold delete_id_handler, try_catch, bind, File_findById, Promise_all,
      Edit_deleteMany, Notification_deleteMany in Hrun.
    rewrite Hfind, Hf in Hrun.
    destruct (fails env OpDeleteEdits) eqn:He,
             (fails env OpDeleteNotifications) eqn:Hn;
      simpl in Hrun; inversion Hrun; subst; simpl; auto.
    destruct Hclean; discriminate.
Qed.

Lemma cascade_integrity_witness :
  ((∀ e, e ∈ edits (router accept_all (quiet 40 id_spare) bob (DELETE_id id_f1) sample_db).2 →
         e_file e ≠ id_f1)
   ∧ (∀ n, n ∈ notifications
                 (router accept_all (quiet 40 id_spare) bob (DELETE_id id_f1) sample_db).2 →
           n_fileId n ≠ id_f1)
   ∧ files (router accept_all (quiet 40 id_spare) bob (DELETE_id id_f1) sample_db).2
       !! id_f1 = None)
  ∧ ((router accept_all (faulty 40 id_spare [OpDeleteNotifications]) bob
        (DELETE_id id_f1) sample_db).1
     = respond 500 (JMessage "Failed to delete file")
     ∧ files (router accept_all (faulty 40 id_spare [OpDeleteNotifications]) bob
                (DELETE_id id_f1) sample_db).2 = files sample_db
     ∧ files (router accept_all (faulty 40 id_spare [OpDeleteNotifications]) bob
                (DELETE_id id_f1) sample_db).2 !! id_f1 = Some hello_doc).
Proof.
  split.
  - apply (proj1 (cascade_integrity accept_all (quiet 40 id_spare) bob id_f1 sample_db
                    _ _ (surjective_pairing _))).
    reflexivity.
  - apply (proj2 (cascade_integrity accept_all (faulty 40 id_spare [OpDeleteNotifications])
                    bob id_f1 sample_db _ _ (surjective_pairing _)) hello_doc).
    + left. reflexivity.
    + reflexivity.
    + reflexivity.
    + right. reflexivity.
Defined.

(** C10. When both cleanups go through and the removal of the file itself
    rejects, the delete answers 500, the file is still stored, and its Edit
    and Notification records are gone for good: nothing puts them back. *)
Theorem delete_no_rollback (validate : FileDoc → bool) env u id db f :
  role u = "editor" ∨ role u = "admin" →
  files db !! id = Some f →
  fails env OpFind = false →
  fails env OpDeleteEdits = false →
  fails env OpDeleteNotifications = false →
  fails env OpDeleteFile = true →
  ∃ db', router validate env u (DELETE_id id) db
         = (respond 500 (JMessage "Failed to delete file"), db')
         ∧ files db' !! id = Some f
         ∧ edits db' = filter (λ e, e_file e ≠ id) (edits db)
         ∧ notifications db' = filter (λ n, n_fileId n ≠ id) (notifications db)
         ∧ (∀ e, e ∈ edits db' → e_file e ≠ id)
         ∧ (∀ n, n ∈ notifications db' → n_fileId n ≠ id).
Proof.
  intros Hrole Hf Hfind He Hn Hdel. unfold router.
  rewrite gate_editor_admin by done.
  unfold delete_id_handler, try_catch, bind, File_findById, Promise_all,
    Edit_deleteMany, Notification_deleteMany, File_findByIdAndDelete.
  rewrite Hfind, Hf, He, Hn, Hdel. simpl.
  eexists. split; [reflexivity|]. simpl. repeat split; try done.
  - intros e. apply filter_edits_clean.
  - intros n. apply filter_notifications_clean.
Qed.

Lemma delete_no_rollback_witness :
  ∃ db', router accept_all (faulty 40 id_spare [OpDeleteFile]) alice (DELETE_id id_f1) sample_db
         = (respond 500 (JMessage "Failed to delete file"), db')
         ∧ files db' !! id_f1 = Some hello_doc
         ∧ edits db' = filter (λ e, e_file e ≠ id_f1) (edits sample_db)
         ∧ notifications db' = filter (λ n, n_fileId n ≠ id_f1) (notifications sample_db)
         ∧ (∀ e, e ∈ edits db' → e_file e ≠ id_f1)
         ∧ (∀ n, n ∈ notifications db' → n_fileId n ≠ id_f1).
Proof.
  apply (delete_no_rollback accept_all (faulty 40 id_spare [OpDeleteFile]) alice id_f1
           sample_db hello_doc); try reflexivity.
  left. reflexivity.
Defined.

(** The edits of the sample that survive the cleanup of id_f1. *)
Example sample_cleanup :
  filter (λ e, e_file e ≠ id_f1) (edits sample_db) = [mkEdit id_e2 id_f2]
  ∧ filter (λ n, n_fileId n ≠ id_f1) (notifications sample_db) = [mkNotification id_n2 id_f2].
Proof. split; reflexivity. Qed.

(** ** Overwriting and creating *)

(** C4. An admin's direct update of an existing file goes through with no
    look at the author: the current content is appended to the ledger under
    the admin's id, and only then is the content replaced. *)
Theorem force_update_bypass (validate : FileDoc → bool) env u id b db f :
  files db !! id = Some f →
  role u = "admin" →
  fails env OpFind = false → fails env OpSave = false → fails env OpPopulate = false →
  validate (forced_doc u b f) = true →
  router validate env u (PUT_id id b) db
  = (json (JFile (populate db (id, overwritten_doc env u b f))),
     set_files (<[id := overwritten_doc env u b f]> (files db)) db)
  ∧ versions (overwritten_doc env u b f)
    = versions f ++ [mkVersion (content f) (u_id u)]
  ∧ content (overwritten_doc env u b f) = body_content b
  ∧ author (overwritten_doc env u b f) = author f.
Proof.
  intros Hf Hrole Hfind Hsave Hpop Hvalid. split; [|done].
  unfold router. rewrite gate_admin by done.
  unfold put_id_handler, try_catch, bind, File_findById.
  rewrite Hfind, Hf.
  unfold doc_save, doc_populate, ret. fold (forced_doc u b f).
  rewrite Hsave, Hvalid, Hpop. reflexivity.
Qed.

Lemma force_update_bypass_witness :
  router accept_all (quiet 50 id_spare) root
    (PUT_id id_f2 (mkBody None (Some "final"))) sample_db
  = (json (JFile (populate sample_db
       (id_f2, overwritten_doc (quiet 50 id_spare) root (mkBody None (Some "final")) draft_doc))),
     set_files (<[id_f2 := overwritten_doc (quiet 50 id_spare) root
                            (mkBody None (Some "final")) draft_doc]>
                  (files sample_db)) sample_db)
  ∧ versions (overwritten_doc (quiet 50 id_spare) root (mkBody None (Some "final")) draft_doc)
    = versions draft_doc ++ [mkVersion (content draft_doc) (u_id root)]
  ∧ content (overwritten_doc (quiet 50 id_spare) root (mkBody None (Some "final")) draft_doc)
    = Some "final"
  ∧ author (overwritten_doc (quiet 50 id_spare) root (mkBody None (Some "final")) draft_doc)
    = id_bob.
Proof.
  apply (force_update_bypass accept_all (quiet 50 id_spare) root id_f2
           (mkBody None (Some "final")) sample_db draft_doc);
    reflexivity.
Defined.

(** C6. A create by an editor or an admin, with an unused id and a store
    that takes the write, answers 201 with a file that is approved, is
    authored by the creator and has exactly one ledger entry, which holds
    the initial content under the creator's id; that file is what is
    stored. *)
Theorem create_founding (validate : FileDoc → bool) env u b db :
  role u = "editor" ∨ role u = "admin" →
  files db !! fresh_id env = None →
  fails env OpSave = false → fails env OpPopulate = false →
  validate (new_File u b) = true →
  ∃ pf, router validate env u (POST_root b) db
        = (respond 201 (JFile pf),
           set_files (<[fresh_id env := pf_doc pf]> (files db)) db)
        ∧ pf_id pf = fresh_id env
        ∧ name (pf_doc pf) = body_name b
        ∧ content (pf_doc pf) = body_content b
        ∧ status (pf_doc pf) = "approved"
        ∧ author (pf_doc pf) = u_id u
        ∧ versions (pf_doc pf) = [mkVersion (body_content b) (u_id u)].
Proof.
  intros Hrole Hfree Hsave Hpop Hvalid.
  exists (populate db (fresh_id env, created_doc env u b)).
  split; [|done].
  unfold router. rewrite gate_editor_admin by done.
  unfold post_root_handler, try_catch, bind, doc_save, doc_populate, ret.
  rewrite Hsave, Hvalid, Hfree, Hpop. reflexivity.
Qed.

Lemma create_founding_witness :
  ∃ pf, router required_fields (quiet 10 id_f9) alice
          (POST_root (mkBody (Some "a.txt") (Some "hello"))) sample_db
        = (respond 201 (JFile pf),
           set_files (<[id_f9 := pf_doc pf]> (files sample_db)) sample_db)
        ∧ pf_id pf = id_f9
        ∧ name (pf_doc pf) = Some "a.txt"
        ∧ content (pf_doc pf) = Some "hello"
        ∧ status (pf_doc pf) = "approved"
        ∧ author (pf_doc pf) = id_alice
        ∧ versions (pf_doc pf) = [mkVersion (Some "hello") id_alice].
Proof.
  apply (create_founding required_fields (quiet 10 id_f9) alice
           (mkBody (Some "a.txt") (Some "hello")) sample_db);
    try reflexivity.
  left. reflexivity.
Defined.

(** ** Absent ids *)

(** C7 fails as worded: an id that is not stored and cannot be cast to an
    ObjectId is answered 500, since the lookup rejects before it can come
    back empty. *)
Lemma absent_id_counterexample :
  ¬ absent_answers_404 accept_all (cast_error 60) root id_malformed
      (mkBody None (Some "c")) sample_db.
Proof.
  intros H. destruct H as [Hget _]; [reflexivity|]. discriminate Hget.
Qed.

(** The four answers to that id. *)
Example malformed_id_answers :
  router accept_all (cast_error 60) root (GET_id id_malformed) sample_db
  = (respond 500 (JMessage "Failed to fetch file"), sample_db)
  ∧ router accept_all (cast_error 60) root
      (PUT_id id_malformed (mkBody None (Some "c"))) sample_db
    = (respond 500 (JMessage "Failed to update file"), sample_db)
  ∧ router accept_all (cast_error 60) root
      (PUT_id_save id_malformed (mkBody None (Some "c"))) sample_db
    = (respond 500 (JMessage "Failed to save file"), sample_db)
  ∧ router accept_all (cast_error 60) root (DELETE_id id_malformed) sample_db
    = (respond 500 (JMessage "Failed to delete file"), sample_db).
Proof. repeat split; reflexivity. Qed.

(** C7, amended. For an id that is not stored and a caller whose role the
    route admits: when the store answers the lookup, reading,
    force-updating, saving and deleting each answer 404 "File not found";
    when the lookup itself rejects, as it does for a path id that cannot be
    cast to an ObjectId, each answers 500 with the failure message of its
    route. Either way the database is left as it was. *)
Theorem absent_id_not_found (validate : FileDoc → bool) env u id b db :
  files db !! id = None →
  (fails env OpFind = false →
     router validate env u (GET_id id) db
     = (respond 404 (JMessage "File not found"), db)
     ∧ (role u = "admin" →
        router validate env u (PUT_id id b) db
        = (respond 404 (JMessage "File not found"), db))
     ∧ (role u = "editor" ∨ role u = "admin" →
        router validate env u (PUT_id_save id b) db
        = (respond 404 (JMessage "File not found"), db))
     ∧ (role u = "editor" ∨ role u = "admin" →
        router validate env u (DELETE_id id) db
        = (respond 404 (JMessage "File not found"), db)))
  ∧ (fails env OpFind = true →
     router validate env u (GET_id id) db
     = (respond 500 (JMessage "Failed to fetch file"), db)
     ∧ (role u = "admin" →
        router validate env u (PUT_id id b) db
        = (respond 500 (JMessage "Failed to update file"), db))
     ∧ (role u = "editor" ∨ role u = "admin" →
        router validate env u (PUT_id_save id b) db
        = (respond 500 (JMessage "Failed to save file"), db))
     ∧ (role u = "editor" ∨ role u = "admin" →
        router validate env u (DELETE_id id) db
        = (respond 500 (JMessage "Failed to delete file"), db))).
Proof.
  intros Hf. split; intros Hfind; repeat split.
  - unfold router, get_id_handler, try_catch, bind, File_findById.
    by rewrite Hfind, Hf.
  - intros Hrole. unfold router. rewrite gate_admin by done.
    unfold put_id_handler, try_catch, bind, File_findById.
    by rewrite Hfind, Hf.
  - intros Hrole. unfold router. rewrite gate_editor_admin by done.
    unfold put_id_save_handler, try_catch, bind, File_findById.
    by rewrite Hfind, Hf.
  - intros Hrole. unfold router. rewrite gate_editor_admin by done.
    unfold delete_id_handler, try_catch, bind, File_findById.
    by rewrite Hfind, Hf.
  - unfold router, get_id_handler, try_catch, bind, File_findById.
    by rewrite Hfind.
  - intros Hrole. unfold router. rewrite gate_admin by done.
    unfold put_id_handler, try_catch, bind, File_findById.
    by rewrite Hfind.
  - intros Hrole. unfold router. rewrite gate_editor_admin by done.
    unfold put_id_save_handler, try_catch, bind, File_findById.
    by rewrite Hfind.
  - intros Hrole. unfold router. rewrite gate_editor_admin by done.
    unfold delete_id_handler, try_catch, bind, File_findById.
    by rewrite Hfind.
Qed.

Lemma absent_id_not_found_witness :
  (router accept_all (quiet 60 id_spare) root (GET_id id_absent) sample_db
   = (respond 404 (JMessage "File not found"), sample_db)
   ∧ router accept_all (quiet 60 id_spare) root
       (PUT_id id_absent (mkBody None (Some "c"))) sample_db
     = (respond 404 (JMessage "File not found"), sample_db)
   ∧ router accept_all (quiet 60 id_spare) root
       (PUT_id_save id_absent (mkBody None (Some "c"))) sample_db
     = (respond 404 (JMessage "File not found"), sample_db)
   ∧ router accept_all (quiet 60 id_spare) root (DELETE_id id_absent) sample_db
     = (respond 404 (JMessage "File not found"), sample_db))
  ∧ (router accept_all (cast_error 60) bob (GET_id id_malformed) sample_db
     = (respond 500 (JMessage "Failed to fetch file"), sample_db)
     ∧ router accept_all (cast_error 60) root
         (PUT_id id_malformed (mkBody None (Some "c"))) sample_db
       = (respond 500 (JMessage "Failed to update file"), sample_db)
     ∧ router accept_all (cast_error 60) bob
         (PUT_id_save id_malformed (mkBody None (Some "c"))) sample_db
       = (respond 500 (JMessage "Failed to save file"), sample_db)
     ∧ router accept_all (cast_error 60) bob (DELETE_id id_malformed) sample_db
       = (respond 500 (JMessage "Failed to delete file"), sample_db)).
Proof.
  split.
  - destruct (proj1 (absent_id_not_found accept_all (quiet 60 id_spare) root id_absent
                       (mkBody None (Some "c")) sample_db eq_refl) eq_refl)
      as (Hget & Hput & Hsave & Hdel).
    split; [exact Hget|].
    split; [exact (Hput eq_refl)|].
    split; [exact (Hsave (or_intror eq_refl)) | exact (Hdel (or_intror eq_refl))].
  - destruct (proj2 (absent_id_not_found accept_all (cast_error 60) bob id_malformed
                       (mkBody None (Some "c")) sample_db eq_refl) eq_refl)
      as (Hget & _ & Hsave & Hdel).
    destruct (proj2 (absent_id_not_found accept_all (cast_error 60) root id_malformed
                       (mkBody None (Some "c")) sample_db eq_refl) eq_refl)
      as (_ & Hput & _ & _).
    split; [exact Hget|].
    split; [exact (Hput eq_refl)|].
    split; [exact (Hsave (or_introl eq_refl)) | exact (Hdel (or_introl eq_refl))].
Defined.

(** ** Listings *)

Lemma find_result_elem (cond : FileDoc → bool) db pf :
  pf ∈ populate db <$>
         merge_sort newer_first (map_to_list (filter (λ d, cond d.2 = true) (files db)))
  ↔ ∃ f, files db !! pf_id pf = Some f ∧ cond f = true
         ∧ pf = populate db (pf_id pf, f).
Proof.
  rewrite list_elem_of_fmap. split.
  - intros ([i f] & -> & Hin). rewrite merge_sort_Permutation in Hin.
    apply elem_of_map_to_list, map_lookup_filter_Some in Hin as [Hf Hc].
    exists f. by simpl in *.
  - intros (f & Hf & Hc & Hpf). exists (pf_id pf, f). split; [done|].
    rewrite merge_sort_Permutation.
    by apply elem_of_map_to_list, map_lookup_filter_Some.
Qed.

Lemma find_result_NoDup (cond : FileDoc → bool) db :
  NoDup (pf_id <$> (populate db <$>
           merge_sort newer_first
             (map_to_list (filter (λ d, cond d.2 = true) (files db))))).
Proof.
  rewrite <- list_fmap_compose.
  rewrite (list_fmap_ext (pf_id ∘ populate db) fst) by done.
  rewrite merge_sort_Permutation. apply NoDup_fst_map_to_list.
Qed.

(** The listings come out most recently updated first. *)
Lemma find_result_sorted (cond : FileDoc → bool) db :
  Sorted newer_first
    (merge_sort newer_first (map_to_list (filter (λ d, cond d.2 = true) (files db)))).
Proof.
  apply Sorted_merge_sort. intros a b. unfold newer_first. lia.
Qed.

Lemma File_find_resolved env (cond : FileDoc → bool) db :
  fails env OpFind = false →
  ∃ l, File_find env cond db = (Resolved l, db)
       ∧ NoDup (pf_id <$> l)
       ∧ ∀ pf, pf ∈ l ↔ ∃ f, files db !! pf_id pf = Some f ∧ cond f = true
                             ∧ pf = populate db (pf_id pf, f).
Proof.
  intros Hfind. unfold File_find. rewrite Hfind. eexists. split; [done|]. split.
  - apply find_result_NoDup.
  - apply find_result_elem.
Qed.

Lemma File_find_rejected env (cond : FileDoc → bool) db :
  fails env OpFind = true → File_find env cond db = (Rejected, db).
Proof. intros Hfind. unfold File_find. by rewrite Hfind. Qed.

(** C5. The general listing never carries a file whose status is not
    approved. The listing of one's own files carries each stored file whose
    author is the caller, once, whatever its status, and no other file. *)
Theorem visibility_scoping (validate : FileDoc → bool) env u db :
  (∀ pf, pf ∈ listed (router validate env u GET_root db).1 →
         status (pf_doc pf) = "approved"
         ∧ files db !! pf_id pf = Some (pf_doc pf))
  ∧ (fails env OpFind = false →
     ∃ l, router validate env u GET_my_files db = (json (JFiles l), db)
          ∧ NoDup (pf_id <$> l)
          ∧ ∀ id f, (∃ pf, pf ∈ l ∧ pf_id pf = id ∧ pf_doc pf = f)
                    ↔ (files db !! id = Some f ∧ author f = u_id u)).
Proof.
  split.
  - intros pf. unfold router, get_root_handler, try_catch, bind, ret.
    destruct (fails env OpFind) eqn:Hfind.
    + rewrite File_find_rejected by done. by intros ?%elem_of_nil.
    + destruct (File_find_resolved env (λ f, bool_decide (status f = "approved"))
                  db Hfind) as (l & -> & _ & Hl).
      unfold listed. simpl. intros (f & Hf & Hc & ->)%Hl. simpl.
      by apply bool_decide_eq_true in Hc.
  - intros Hfind.
    destruct (File_find_resolved env (λ f, bool_decide (author f = u_id u))
                db Hfind) as (l & Hrun & Hnodup & Hl).
    exists l. split; [|split; [done|]].
    + unfold router, get_my_files_handler, try_catch, bind, ret. by rewrite Hrun.
    + intros id f. split.
      * intros (pf & (f' & Hf' & Hc & ->)%Hl & <- & <-). simpl.
        by apply bool_decide_eq_true in Hc.
      * intros [Hf Ha]. exists (populate db (id, f)). split; [|done].
        apply Hl. exists f. simpl. by rewrite bool_decide_eq_true.
Qed.

Lemma visibility_scoping_witness :
  (status hello_doc = "approved" ∧ files sample_db !! id_f1 = Some hello_doc)
  ∧ ∃ l, router accept_all (quiet 70 id_spare) bob GET_my_files sample_db
         = (json (JFiles l), sample_db)
         ∧ NoDup (pf_id <$> l)
         ∧ ∀ id f, (∃ pf, pf ∈ l ∧ pf_id pf = id ∧ pf_doc pf = f)
                   ↔ (files sample_db !! id = Some f ∧ author f = u_id bob).
Proof.
  split.
  - apply (proj1 (visibility_scoping accept_all (quiet 70 id_spare) bob sample_db)
             (populate sample_db (id_f1, hello_doc))).
    vm_compute. constructor.
  - apply (proj2 (visibility_scoping accept_all (quiet 70 id_spare) bob sample_db)).
    reflexivity.
Defined.

(** What the two listings answer on the sample: the draft of Bob is absent
    from the general listing and present in his own. *)
Example sample_listings :
  listed (router accept_all (quiet 70 id_spare) bob GET_root sample_db).1
  = [populate sample_db (id_f1, hello_doc)]
  ∧ listed (router accept_all (quiet 70 id_spare) bob GET_my_files sample_db).1
    = [populate sample_db (id_f2, draft_doc)].
Proof. split; vm_compute; reflexivity. Qed.

(** ** Creating without a name or a content *)

(** C8 fails as worded: under a schema that requires both fields, a create
    without a name gets the very answer of a store error. *)
Lemma create_validates_counterexample :
  ¬ create_validates required_fields (quiet 10 id_f9) alice
      (mkBody None (Some "hello")) sample_db.
Proof.
  intros H. destruct H as [[_ Hkind] _]; [by left|].
  apply Hkind. reflexivity.
Qed.

(** Under a schema that requires nothing, the same request is stored. *)
Example create_without_name_stored :
  router accept_all (quiet 10 id_f9) alice (POST_root (mkBody None (Some "hello")))
    sample_db
  = (respond 201 (JFile (mkPopulated id_f9
       (mkFile None (Some "hello") id_alice "approved" [mkVersion (Some "hello") id_alice] 10)
       (Some ("Alice", "alice@example.org")))),
     set_files (<[id_f9 := mkFile None (Some "hello") id_alice "approved"
                            [mkVersion (Some "hello") id_alice] 10]>
                  (files sample_db)) sample_db).
Proof. reflexivity. Qed.

(** C8, amended. The create handler checks nothing itself. A request
    without name or content is answered either 201 or with the one answer of
    every rejection, 500 "Failed to create file". When the schema refuses
    the document that answer is given and nothing is stored; when the schema
    and the store take it, the document is stored with the field unset. *)
Theorem create_missing_fields (validate : FileDoc → bool) env u b db r db' :
  role u = "editor" ∨ role u = "admin" →
  missing_required b →
  router validate env u (POST_root b) db = (r, db') →
  (statusCode r = 201%N ∨ r = create_store_error)
  ∧ (validate (new_File u b) = false → r = create_store_error ∧ db' = db)
  ∧ (validate (new_File u b) = true →
     fails env OpSave = false → files db !! fresh_id env = None →
     ∃ d, files db' !! fresh_id env = Some d
          ∧ (name d = None ∨ content d = None)).
Proof.
  intros Hrole Hmiss Hrun. unfold router in Hrun.
  rewrite gate_editor_admin in Hrun by done.
  unfold post_root_handler, try_catch, bind, doc_save, doc_populate, ret in Hrun.
  destruct (validate (new_File u b)) eqn:Hvalid, (fails env OpSave) eqn:Hsave;
    simpl in Hrun.
  - inversion Hrun; subst. split; [by right|]. split; [done|]. discriminate.
  - destruct (bool_decide (is_Some (files db !! fresh_id env))) eqn:Hfree;
      simpl in Hrun.
    + inversion Hrun; subst. split; [by right|]. split; [done|].
      intros _ _ Hnone. apply bool_decide_eq_true in Hfree as [? Hsome]. congruence.
    + assert (Hstored : ∃ d, files (set_files
                 (<[fresh_id env := created_doc env u b]> (files db)) db)
                 !! fresh_id env = Some d ∧ (name d = None ∨ content d = None)).
      { exists (created_doc env u b). split; [apply lookup_insert_eq|].
        destruct Hmiss; [left | right]; done. }
      destruct (fails env OpPopulate); inversion Hrun; subst;
        (split; [auto|]); (split; [done|]); intros _ _ _; exact Hstored.
  - inversion Hrun; subst. split; [by right|]. split; [done|]. discriminate.
  - inversion Hrun; subst. split; [by right|]. split; [done|]. discriminate.
Qed.

Lemma create_missing_fields_witness :
  ((router required_fields (quiet 10 id_f9) alice
      (POST_root (mkBody None (Some "hello"))) sample_db).1 = create_store_error
   ∧ (router required_fields (quiet 10 id_f9) alice
        (POST_root (mkBody None (Some "hello"))) sample_db).2 = sample_db)
  ∧ ∃ d, files (router accept_all (quiet 10 id_f9) alice
                  (POST_root (mkBody None (Some "hello"))) sample_db).2 !! id_f9 = Some d
         ∧ (name d = None ∨ content d = None).
Proof.
  split.
  - apply (proj1 (proj2 (create_missing_fields required_fields (quiet 10 id_f9) alice
             (mkBody None (Some "hello")) sample_db _ _
             (or_introl eq_refl) (or_introl eq_refl) (surjective_pairing _)))).
    reflexivity.
  - apply (proj2 (proj2 (create_missing_fields accept_all (quiet 10 id_f9) alice
             (mkBody None (Some "hello")) sample_db _ _
             (or_introl eq_refl) (or_introl eq_refl) (surjective_pairing _))));
      reflexivity.
Defined.

(** ** The ledger only grows *)

Section AppendOnly.

Variable validate : FileDoc → bool.

(** One request, other than the deletion of the file itself, leaves the
    file stored with its old ledger as a prefix of the new one. *)
Lemma router_ledger env u req db r db' id f :
  router validate env u req db = (r, db') →
  req ≠ DELETE_id id →
  files db !! id = Some f →
  ∃ f', files db' !! id = Some f' ∧ versions f `prefix_of` versions f'.
Proof.
  intros Hrun Hreq Hf.
  assert (Hsame : ∃ f', files db !! id = Some f' ∧ versions f `prefix_of` versions f')
    by (by exists f).
  destruct req as [| |i|b|i b|i b|i]; unfold_router; case_tests; simpl; try done.
  all: match goal with
       | |- ∃ _, <[fresh_id _ := _]> _ !! _ = _ ∧ _ =>
         (* POST: the insertion is at an id that was free *)
         bool_hyps; rewrite lookup_insert_ne; [done|];
         intros Heq; rewrite Heq in *; eauto
       | |- ∃ _, <[?i := _]> _ !! ?j = _ ∧ _ =>
         (* PUT: the ledger of the file written back has one more entry *)
         destruct (decide (i = j)) as [->|];
         [ rewrite lookup_insert_eq; simplify_eq; eexists; split; [done|];
           simpl; by apply prefix_app_r
         | by rewrite lookup_insert_ne ]
       | |- ∃ _, delete ?i _ !! ?j = _ ∧ _ =>
         (* DELETE of another file *)
         rewrite lookup_delete_ne; [done | congruence]
       end.
Qed.

(** C9. Along any run of requests that does not delete the file itself
    (creates, saves, direct updates, reads, listings, deletions of other
    files), the file stays stored and its ledger at the start is a prefix
    of its ledger at the end: entries are only ever appended. *)
Theorem ledger_append_only reqs : ∀ db rs db' id f,
  serve validate reqs db = (rs, db') →
  Forall (λ q, q.2 ≠ DELETE_id id) reqs →
  files db !! id = Some f →
  ∃ f', files db' !! id = Some f' ∧ versions f `prefix_of` versions f'.
Proof.
  induction reqs as [|[[env u] req] reqs IH]; intros db rs db' id f Hrun Hreqs Hf.
  - inversion Hrun; subst. by exists f.
  - change (serve validate ((env, u, req) :: reqs) db)
      with (let '(r, db1) := router validate env u req db in
            let '(rs, db2) := serve validate reqs db1 in (r :: rs, db2)) in Hrun.
    destruct (router validate env u req db) as [r db1] eqn:Hstep.
    destruct (serve validate reqs db1) as [rs' db2] eqn:Hrest.
    inversion Hrun; subst. apply Forall_cons in Hreqs as [Hreq Hreqs].
    destruct (router_ledger _ _ _ _ _ _ _ _ Hstep Hreq Hf) as (f1 & Hf1 & Hp1).
    destruct (IH _ _ _ _ _ Hrest Hreqs Hf1) as (f2 & Hf2 & Hp2).
    exists f2. split; [done|]. by etrans.
Qed.

End AppendOnly.

Lemma ledger_append_only_witness :
  ∃ f', files (serve accept_all
                 [(quiet 80 id_f3, alice, POST_root (mkBody (Some "c.txt") (Some "new")));
                  (quiet 81 id_spare, alice, PUT_id_save id_f1 (mkBody None (Some "world")));
                  (quiet 82 id_spare, bob, GET_root);
                  (quiet 83 id_spare, bob, DELETE_id id_f2);
                  (quiet 84 id_spare, root, PUT_id id_f1 (mkBody None (Some "fixed")))]
                 sample_db).2 !! id_f1 = Some f'
        ∧ versions hello_doc `prefix_of` versions f'.
Proof.
  apply (ledger_append_only accept_all
           [(quiet 80 id_f3, alice, POST_root (mkBody (Some "c.txt") (Some "new")));
            (quiet 81 id_spare, alice, PUT_id_save id_f1 (mkBody None (Some "world")));
            (quiet 82 id_spare, bob, GET_root);
            (quiet 83 id_spare, bob, DELETE_id id_f2);
            (quiet 84 id_spare, root, PUT_id id_f1 (mkBody None (Some "fixed")))]
           sample_db _ _ id_f1 hello_doc (surjective_pairing _)).
  - repeat constructor; discriminate.
  - reflexivity.
Defined.

(** The ledger of id_f1 at the end of that run. *)
Example sample_run_ledger :
  versions <$> files (serve accept_all
                 [(quiet 80 id_f3, alice, POST_root (mkBody (Some "c.txt") (Some "new")));
                  (quiet 81 id_spare, alice, PUT_id_save id_f1 (mkBody None (Some "world")));
                  (quiet 82 id_spare, bob, GET_root);
                  (quiet 83 id_spare, bob, DELETE_id id_f2);
                  (quiet 84 id_spare, root, PUT_id id_f1 (mkBody None (Some "fixed")))]
                 sample_db).2 !! id_f1
  = Some [mkVersion (Some "hello") id_alice; mkVersion (Some "hello") id_alice;
          mkVersion (Some "world") id_root].
Proof. vm_compute. reflexivity. Qed.

(** * Further properties of the routes *)

(** ** What one request does to one file *)

Section Steps.

Variable validate : FileDoc → bool.

(** Every file stored after a request is the file stored before it, or the
    snapshot-then-overwrite of the file stored before it, or the document a
    create has just inserted under a free id. *)
Lemma router_files_step env u req db r db' id f' :
  router validate env u req db = (r, db') →
  files db' !! id = Some f' →
  files db !! id = Some f'
  ∨ (∃ f b, files db !! id = Some f
            ∧ (req = PUT_id id b ∧ f' = overwritten_doc env u b f
               ∨ req = PUT_id_save id b ∧ f' = saved_doc env u b f))
  ∨ (∃ b, req = POST_root b ∧ id = fresh_id env ∧ files db !! id = None
          ∧ f' = created_doc env u b).
Proof.
  intros Hrun. destruct req as [| |i|b|i b|i b|i];
    unfold_router; case_tests; simpl; intros Hlk; auto.
  all: match type of Hlk with
       | <[fresh_id _ := _]> _ !! _ = _ =>
         apply lookup_insert_Some in Hlk as [[<- <-]|[? ?]]; [|by left];
         right; right; bool_hyps; eexists; repeat split;
         match goal with
         | H : ¬ is_Some ?o |- ?o = None => destruct o; [exfalso; eauto | done]
         end
       | <[_ := _]> _ !! _ = _ =>
         apply lookup_insert_Some in Hlk as [[<- <-]|[? ?]]; [|by left];
         right; left; do 2 eexists; split; [done|];
         first [ left; split; reflexivity
               | right; split; [reflexivity|];
                 unfold saved_doc, edited_doc;
                 match goal with H : truthy _ = _ |- _ => by rewrite H end ]
       | delete _ _ !! _ = _ =>
         apply lookup_delete_Some in Hlk as [? ?]; by left
       end.
Qed.

End Steps.

Section Invariants.

Variable validate : FileDoc → bool.

Lemma serve_cons_db env u req reqs db :
  (serve validate ((env, u, req) :: reqs) db).2
  = (serve validate reqs (router validate env u req db).2).2.
Proof.
  change (serve validate ((env, u, req) :: reqs) db)
    with (let '(r, db1) := router validate env u req db in
          let '(rs, db2) := serve validate reqs db1 in (r :: rs, db2)).
  destruct (router validate env u req db) as [r db1]. cbn [snd].
  by destruct (serve validate reqs db1).
Qed.

(** Seen from the file: a request that is not its own deletion leaves it as
    it is, or appends the content it had under the caller's id and only
    then replaces the content. *)
Lemma router_file_forward env u req db r db' id f :
  router validate env u req db = (r, db') →
  req ≠ DELETE_id id →
  files db !! id = Some f →
  files db' !! id = Some f
  ∨ ∃ f' b, files db' !! id = Some f'
            ∧ (req = PUT_id id b ∨ req = PUT_id_save id b)
            ∧ versions f' = versions f ++ [mkVersion (content f) (u_id u)]
            ∧ content f' = body_content b
            ∧ author f' = author f
            ∧ status f' = status f.
Proof.
  intros Hrun Hreq Hf.
  destruct (router_ledger validate _ _ _ _ _ _ _ _ Hrun Hreq Hf) as (f' & Hf' & _).
  destruct (router_files_step validate _ _ _ _ _ _ _ _ Hrun Hf')
    as [Hsame | [(f0 & b & Hf0 & Hkind) | (b & _ & _ & Hnone & _)]].
  - left. congruence.
  - right. assert (f0 = f) as -> by congruence. exists f', b. split; [done|].
    destruct Hkind as [[-> ->] | [-> ->]].
    + split; [by left|]. done.
    + split; [by right|].
      by rewrite saved_doc_versions, saved_doc_content, saved_doc_author,
        saved_doc_status.
  - congruence.
Qed.

Lemma router_keeps_founded env u req db :
  (∀ id f, files db !! id = Some f → founded f) →
  ∀ id f, files (router validate env u req db).2 !! id = Some f → founded f.
Proof.
  intros Hinv id f' Hf'.
  destruct (router validate env u req db) as [r db'] eqn:Hrun. simpl in Hf'.
  destruct (router_files_step validate _ _ _ _ _ _ _ _ Hrun Hf')
    as [Hsame | [(f0 & b & Hf0 & Hkind) | (b & _ & _ & _ & ->)]].
  - by eapply Hinv.
  - destruct (Hinv _ _ Hf0) as (Hst & v & vs & Hvs & Hby).
    destruct Hkind as [[_ ->] | [_ ->]]; split.
    + done.
    + exists v, (vs ++ [mkVersion (content f0) (u_id u)]). simpl.
      by rewrite Hvs.
    + by rewrite saved_doc_status.
    + exists v, (vs ++ [mkVersion (content f0) (u_id u)]).
      by rewrite saved_doc_versions, saved_doc_author, Hvs.
  - split; [done|]. by eexists _, [].
Qed.

Lemma serve_keeps_founded reqs : ∀ db,
  (∀ id f, files db !! id = Some f → founded f) →
  ∀ id f, files (serve validate reqs db).2 !! id = Some f → founded f.
Proof.
  induction reqs as [|[[env u] req] reqs IH]; intros db Hinv id f.
  - apply Hinv.
  - rewrite serve_cons_db. apply IH. by apply router_keeps_founded.
Qed.

(** X14. A request other than the deletion of a file never replaces its
    content without recording it: the file is left exactly as stored, or a
    direct update or save appended the old content under the caller's id,
    set the new content and kept author and status. *)
Theorem overwrite_always_snapshotted env u req db r db' id f :
  router validate env u req db = (r, db') →
  req ≠ DELETE_id id →
  files db !! id = Some f →
  files db' !! id = Some f
  ∨ ∃ f' b, files db' !! id = Some f'
            ∧ (req = PUT_id id b ∨ req = PUT_id_save id b)
            ∧ versions f' = versions f ++ [mkVersion (content f) (u_id u)]
            ∧ content f' = body_content b
            ∧ author f' = author f
            ∧ status f' = status f.
Proof. apply router_file_forward. Qed.

(** X3. Author and status of a file are never changed: along any run of
    requests that does not delete the file itself, it stays stored under the
    same author and with the same status. *)
Theorem author_status_immutable reqs : ∀ db id f,
  Forall (λ q, q.2 ≠ DELETE_id id) reqs →
  files db !! id = Some f →
  ∃ f', files (serve validate reqs db).2 !! id = Some f'
        ∧ author f' = author f ∧ status f' = status f.
Proof.
  induction reqs as [|[[env u] req] reqs IH]; intros db id f Hreqs Hf.
  - by exists f.
  - apply Forall_cons in Hreqs as [Hreq Hreqs]. rewrite serve_cons_db.
    destruct (router validate env u req db) as [r db1] eqn:Hstep. simpl in *.
    destruct (router_file_forward _ _ _ _ _ _ _ _ Hstep Hreq Hf)
      as [Hf1 | (f1 & b & Hf1 & _ & _ & _ & Ha & Hs)].
    + by apply IH.
    + destruct (IH _ _ _ Hreqs Hf1) as (f' & Hf' & Ha' & Hs').
      exists f'. split; [done|]. split; congruence.
Qed.

(** X15. Starting from an empty collection, whatever requests are served,
    every stored file is approved and its ledger starts with an entry made
    by its author. *)
Theorem founded_from_empty reqs db id f :
  files db = ∅ →
  files (serve validate reqs db).2 !! id = Some f →
  founded f.
Proof.
  intros Hempty. apply serve_keeps_founded. intros i g.
  by rewrite Hempty, lookup_empty.
Qed.

End Invariants.

Lemma overwrite_always_snapshotted_witness :
  files (router accept_all (quiet 81 id_spare) alice
           (PUT_id_save id_f1 (mkBody None (Some "world"))) sample_db).2 !! id_f1
  = Some hello_doc
  ∨ ∃ f' b,
      files (router accept_all (quiet 81 id_spare) alice
               (PUT_id_save id_f1 (mkBody None (Some "world"))) sample_db).2 !! id_f1
      = Some f'
      ∧ (PUT_id_save id_f1 (mkBody None (Some "world")) = PUT_id id_f1 b
         ∨ PUT_id_save id_f1 (mkBody None (Some "world")) = PUT_id_save id_f1 b)
      ∧ versions f' = versions hello_doc ++ [mkVersion (content hello_doc) (u_id alice)]
      ∧ content f' = body_content b
      ∧ author f' = author hello_doc
      ∧ status f' = status hello_doc.
Proof.
  apply (overwrite_always_snapshotted accept_all (quiet 81 id_spare) alice
           (PUT_id_save id_f1 (mkBody None (Some "world"))) sample_db _ _
           id_f1 hello_doc (surjective_pairing _)).
  - discriminate.
  - reflexivity.
Defined.

Lemma author_status_immutable_witness :
  ∃ f', files (serve accept_all
                 [(quiet 81 id_spare, alice, PUT_id_save id_f1 (mkBody None (Some "world")));
                  (quiet 83 id_spare, bob, DELETE_id id_f2);
                  (quiet 84 id_spare, root,
                   PUT_id id_f1 (mkBody (Some "z.txt") (Some "fixed")))]
                 sample_db).2 !! id_f1 = Some f'
        ∧ author f' = id_alice ∧ status f' = "approved".
Proof.
  apply (author_status_immutable accept_all
           [(quiet 81 id_spare, alice, PUT_id_save id_f1 (mkBody None (Some "world")));
            (quiet 83 id_spare, bob, DELETE_id id_f2);
            (quiet 84 id_spare, root,
             PUT_id id_f1 (mkBody (Some "z.txt") (Some "fixed")))]
           sample_db id_f1 hello_doc).
  - repeat constructor; discriminate.
  - reflexivity.
Defined.

Lemma founded_from_empty_witness :
  founded (mkFile (Some "a.txt") (Some "fixed") id_alice "approved"
             [mkVersion (Some "hello") id_alice; mkVersion (Some "hello") id_alice;
              mkVersion (Some "world") id_root] 12).
Proof.
  apply (founded_from_empty accept_all
           [(quiet 10 id_f1, alice, POST_root (mkBody (Some "a.txt") (Some "hello")));
            (quiet 11 id_spare, alice, PUT_id_save id_f1 (mkBody None (Some "world")));
            (quiet 12 id_spare, root, PUT_id id_f1 (mkBody None (Some "fixed")))]
           empty_db id_f1).
  - reflexivity.
  - vm_compute. reflexivity.
Defined.

(** ** Reads and refusals *)

Lemma router_read_db (validate : FileDoc → bool) env u req db :
  is_read req = true → (router validate env u req db).2 = db.
Proof.
  destruct req; try discriminate; intros _; unfold_router;
    destruct (fails env OpFind); try done.
  by destruct (files db !! id).
Qed.

(** X1. The three reading routes never write: after any run of listings and
    single-file reads, whatever the store rejects, the database is the one
    the run started from. *)
Theorem reads_leave_store (validate : FileDoc → bool) reqs : ∀ db,
  Forall (λ q, is_read q.2 = true) reqs →
  (serve validate reqs db).2 = db.
Proof.
  induction reqs as [|[[env u] req] reqs IH]; intros db Hreads; [done|].
  apply Forall_cons in Hreads as [Hread Hreads].
  rewrite serve_cons_db, router_read_db by done. by apply IH.
Qed.

Lemma reads_leave_store_witness :
  (serve accept_all
     [(quiet 70 id_spare, bob, GET_root);
      (faulty 71 id_spare [OpFind], bob, GET_my_files);
      (quiet 72 id_spare, alice, GET_id id_f2);
      (quiet 73 id_spare, alice, GET_id id_absent)]
     sample_db).2 = sample_db.
Proof.
  apply (reads_leave_store accept_all
           [(quiet 70 id_spare, bob, GET_root);
            (faulty 71 id_spare [OpFind], bob, GET_my_files);
            (quiet 72 id_spare, alice, GET_id id_f2);
            (quiet 73 id_spare, alice, GET_id id_absent)]
           sample_db).
  repeat constructor.
Defined.

(** X8. A 404 is only ever answered for a request that names a file that is
    not stored, and a 404 or a 403 leaves the database as it was. *)
Theorem refusals_keep_store (validate : FileDoc → bool) env u req db r db' :
  router validate env u req db = (r, db') →
  (statusCode r = 404%N →
     db' = db ∧ ∃ i, target req = Some i ∧ files db !! i = None)
  ∧ (statusCode r = 403%N → db' = db).
Proof.
  intros Hrun. destruct req; unfold_router; case_tests; simpl;
    (split; intros; try discriminate; eauto).
Qed.

Lemma refusals_keep_store_witness :
  ((router accept_all (quiet 60 id_spare) alice (DELETE_id id_absent) sample_db).2
   = sample_db
   ∧ ∃ i, target (DELETE_id id_absent) = Some i ∧ files sample_db !! i = None)
  ∧ (router accept_all (quiet 60 id_spare) bob
       (PUT_id_save id_f1 (mkBody None (Some "mine now"))) sample_db).2 = sample_db.
Proof.
  split.
  - apply (proj1 (refusals_keep_store accept_all (quiet 60 id_spare) alice
                    (DELETE_id id_absent) sample_db _ _ (surjective_pairing _))).
    reflexivity.
  - apply (proj2 (refusals_keep_store accept_all (quiet 60 id_spare) bob
                    (PUT_id_save id_f1 (mkBody None (Some "mine now"))) sample_db _ _
                    (surjective_pairing _))).
    reflexivity.
Defined.

(** ** More on deletion *)

Section Deletion.

Variable validate : FileDoc → bool.

(** The delete handler, once the gate is passed and the file found. *)
Lemma delete_found env u id db f :
  role u = "editor" ∨ role u = "admin" →
  files db !! id = Some f →
  fails env OpFind = false →
  router validate env u (DELETE_id id) db
  = try_catch
      (await Promise_all (Edit_deleteMany env id) (Notification_deleteMany env id);
       await File_findByIdAndDelete env id;
       ret (json (JMessage "File deleted successfully")))
      (respond 500 (JMessage "Failed to delete file")) db.
Proof.
  intros Hrole Hf Hfind. unfold router. rewrite gate_editor_admin by done.
  unfold delete_id_handler, try_catch, bind, File_findById.
  by rewrite Hfind, Hf.
Qed.



(** X4. Deleting asks for no ownership: for any editor or admin, author or
    not, with a store that answers, the delete of a stored file answers 200,
    removes that file and exactly the Edit and Notification records that
    refer to it, and leaves every other file, record and user in place. *)
Theorem delete_any_file env u id db f :
  role u = "editor" ∨ role u = "admin" →
  files db !! id = Some f →
  fails env OpFind = false →
  fails env OpDeleteEdits = false →
  fails env OpDeleteNotifications = false →
  fails env OpDeleteFile = false →
  ∃ db', router validate env u (DELETE_id id) db
         = (json (JMessage "File deleted successfully"), db')
         ∧ files db' !! id = None
         ∧ (∀ j, j ≠ id → files db' !! j = files db !! j)
         ∧ (∀ e, e ∈ edits db' ↔ e ∈ edits db ∧ e_file e ≠ id)
         ∧ (∀ n, n ∈ notifications db' ↔ n ∈ notifications db ∧ n_fileId n ≠ id)
         ∧ users db' = users db.
Proof.
  intros Hrole Hf Hfind He Hn Hdel. rewrite (delete_found _ _ _ _ f) by done.
  unfold try_catch, bind, Promise_all, Edit_deleteMany, Notification_deleteMany,
    File_findByIdAndDelete, ret.
  rewrite He, Hn, Hdel. simpl. eexists. split; [reflexivity|]. simpl.
  split; [apply lookup_delete_eq|]. split; [|split; [|split]].
  - intros j Hj. by apply lookup_delete_ne.
  - intros e. rewrite list_elem_of_filter. tauto.
  - intros n. rewrite list_elem_of_filter. tauto.
  - done.
Qed.

(** X12. The two cleanups of a delete are independent: when one of them
    rejects, the other one still removes its records. The answer is 500 and
    the file stays, with one kind of dependents gone and the other kept. *)
Theorem partial_cascade env u id db f :
  role u = "editor" ∨ role u = "admin" →
  files db !! id = Some f →
  fails env OpFind = false →
  (fails env OpDeleteEdits = true → fails env OpDeleteNotifications = false →
     router validate env u (DELETE_id id) db
     = (respond 500 (JMessage "Failed to delete file"),
        set_notifications (filter (λ n, n_fileId n ≠ id) (notifications db)) db))
  ∧ (fails env OpDeleteEdits = false → fails env OpDeleteNotifications = true →
     router validate env u (DELETE_id id) db
     = (respond 500 (JMessage "Failed to delete file"),
        set_edits (filter (λ e, e_file e ≠ id) (edits db)) db)).
Proof.
  intros Hrole Hf Hfind. rewrite (delete_found _ _ _ _ f) by done.
  unfold try_catch, bind, Promise_all, Edit_deleteMany, Notification_deleteMany.
  split; intros He Hn; by rewrite He, Hn.
Qed.


End Deletion.

Lemma delete_any_file_witness :
  ∃ db', router accept_all (quiet 40 id_spare) bob (DELETE_id id_f1) sample_db
         = (json (JMessage "File deleted successfully"), db')
         ∧ files db' !! id_f1 = None
         ∧ (∀ j, j ≠ id_f1 → files db' !! j = files sample_db !! j)
         ∧ (∀ e, e ∈ edits db' ↔ e ∈ edits sample_db ∧ e_file e ≠ id_f1)
         ∧ (∀ n, n ∈ notifications db'
                 ↔ n ∈ notifications sample_db ∧ n_fileId n ≠ id_f1)
         ∧ users db' = users sample_db.
Proof.
  apply (delete_any_file accept_all (quiet 40 id_spare) bob id_f1 sample_db hello_doc);
    try reflexivity.
  left. reflexivity.
Defined.

Lemma partial_cascade_witness :
  router accept_all (faulty 40 id_spare [OpDeleteEdits]) bob (DELETE_id id_f1) sample_db
  = (respond 500 (JMessage "Failed to delete file"),
     set_notifications (filter (λ n, n_fileId n ≠ id_f1) (notifications sample_db))
       sample_db)
  ∧ router accept_all (faulty 40 id_spare [OpDeleteNotifications]) bob
      (DELETE_id id_f1) sample_db
    = (respond 500 (JMessage "Failed to delete file"),
       set_edits (filter (λ e, e_file e ≠ id_f1) (edits sample_db)) sample_db).
Proof.
  split.
  - apply (proj1 (partial_cascade accept_all (faulty 40 id_spare [OpDeleteEdits]) bob
                    id_f1 sample_db hello_doc (or_introl eq_refl) eq_refl eq_refl));
      reflexivity.
  - apply (proj2 (partial_cascade accept_all (faulty 40 id_spare [OpDeleteNotifications])
                    bob id_f1 sample_db hello_doc (or_introl eq_refl) eq_refl eq_refl));
      reflexivity.
Defined.


(** ** More on writing *)

Section Writing.

Variable validate : FileDoc → bool.

Lemma doc_save_rejected env isNew id f db :
  fails env OpSave = true ∨ validate f = false →
  doc_save validate env isNew id f db = (Rejected, db).
Proof. unfold doc_save. by intros [-> | ->]; rewrite ?orb_true_r. Qed.

Lemma doc_save_resolved env isNew id f db :
  fails env OpSave = false → validate f = true →
  (isNew = true → files db !! id = None) →
  doc_save validate env isNew id f db
  = (Resolved (set_updatedAt (now env) f),
     set_files (<[id := set_updatedAt (now env) f]> (files db)) db).
Proof.
  intros Hs Hv Hnew. unfold doc_save. rewrite Hs, Hv. simpl.
  destruct isNew; [|done]. by rewrite Hnew.
Qed.

(** The save handler, once the gate and the ownership test are passed. *)
Lemma save_found env u id b db f :
  role u = "editor" ∨ role u = "admin" →
  files db !! id = Some f →
  fails env OpFind = false →
  author f = u_id u ∨ role u = "admin" →
  router validate env u (PUT_id_save id b) db
  = try_catch
      (const saved := await doc_save validate env false id (edited_doc u b f);
       const populated := await doc_populate env id saved;
       ret (json (JFile populated)))
      (respond 500 (JMessage "Failed to save file")) db.
Proof.
  intros Hrole Hf Hfind Hown. unfold router. rewrite gate_editor_admin by done.
  unfold put_id_save_handler, try_catch at 1, bind at 1, File_findById.
  rewrite Hfind, Hf.
  replace (negb (bool_decide (author f = u_id u))
           && negb (bool_decide (role u = "admin"))) with false; [done|].
  destruct Hown as [Ha | Hr]; [rewrite (bool_decide_eq_true_2 _ Ha)
                              | rewrite (bool_decide_eq_true_2 _ Hr)];
    by rewrite ?andb_false_r.
Qed.

(** The direct-update handler, once the gate is passed. *)
Lemma update_found env u id b db f :
  role u = "admin" →
  files db !! id = Some f →
  fails env OpFind = false →
  router validate env u (PUT_id id b) db
  = try_catch
      (const saved := await doc_save validate env false id (forced_doc u b f);
       const populated := await doc_populate env id saved;
       ret (json (JFile populated)))
      (respond 500 (JMessage "Failed to update file")) db.
Proof.
  intros Hrole Hf Hfind. unfold router. rewrite gate_admin by done.
  unfold put_id_handler, try_catch at 1, bind at 1, File_findById.
  by rewrite Hfind, Hf.
Qed.

(** X5. A write that [file.save()] rejects, because the store fails or the
    schema refuses the document, is answered with the route's 500 and leaves
    the database untouched: the snapshot pushed in memory is not kept. *)
Theorem rejected_write_keeps_store env u id b db f :
  files db !! id = Some f →
  fails env OpFind = false →
  (role u = "editor" ∨ role u = "admin" →
   author f = u_id u ∨ role u = "admin" →
   fails env OpSave = true ∨ validate (edited_doc u b f) = false →
   router validate env u (PUT_id_save id b) db
   = (respond 500 (JMessage "Failed to save file"), db))
  ∧ (role u = "admin" →
     fails env OpSave = true ∨ validate (forced_doc u b f) = false →
     router validate env u (PUT_id id b) db
     = (respond 500 (JMessage "Failed to update file"), db)).
Proof.
  intros Hf Hfind. split.
  - intros Hrole Hown Hrej. rewrite (save_found _ _ _ _ _ f) by done.
    unfold try_catch, bind. by rewrite doc_save_rejected.
  - intros Hrole Hrej. rewrite (update_found _ _ _ _ _ f) by done.
    unfold try_catch, bind. by rewrite doc_save_rejected.
Qed.

(** X6. A 500 does not mean that nothing was written. When the write goes
    through and the [populate] after it rejects, create, direct update and
    save each answer their 500 although the document is stored. *)
Theorem populate_rejection_after_write env u id b db f :
  fails env OpSave = false →
  fails env OpPopulate = true →
  (role u = "editor" ∨ role u = "admin" →
   files db !! fresh_id env = None →
   validate (new_File u b) = true →
   router validate env u (POST_root b) db
   = (respond 500 (JMessage "Failed to create file"),
      set_files (<[fresh_id env := created_doc env u b]> (files db)) db))
  ∧ (role u = "admin" →
     files db !! id = Some f → fails env OpFind = false →
     validate (forced_doc u b f) = true →
     router validate env u (PUT_id id b) db
     = (respond 500 (JMessage "Failed to update file"),
        set_files (<[id := overwritten_doc env u b f]> (files db)) db))
  ∧ (role u = "editor" ∨ role u = "admin" →
     files db !! id = Some f → fails env OpFind = false →
     author f = u_id u ∨ role u = "admin" →
     validate (edited_doc u b f) = true →
     router validate env u (PUT_id_save id b) db
     = (respond 500 (JMessage "Failed to save file"),
        set_files (<[id := saved_doc env u b f]> (files db)) db)).
Proof.
  intros Hsave Hpop. split; [|split].
  - intros Hrole Hfree Hvalid. unfold router. rewrite gate_editor_admin by done.
    unfold post_root_handler, try_catch, bind.
    rewrite doc_save_resolved by done. unfold doc_populate. by rewrite Hpop.
  - intros Hrole Hf Hfind Hvalid. rewrite (update_found _ _ _ _ _ f) by done.
    unfold try_catch, bind. rewrite doc_save_resolved by done.
    unfold doc_populate. by rewrite Hpop.
  - intros Hrole Hf Hfind Hown Hvalid. rewrite (save_found _ _ _ _ _ f) by done.
    unfold try_catch, bind. rewrite doc_save_resolved by done.
    unfold doc_populate. by rewrite Hpop.
Qed.

(** X7. The author's own save goes through: for an editor or admin who is
    the author of the file, or an admin who is not, with a store that takes
    the write, the save answers 200 with the stored document, whose ledger
    has the old content appended under the caller's id, whose content is the
    new one and whose author and status are unchanged. *)
Theorem save_by_author env u id b db f :
  role u = "editor" ∨ role u = "admin" →
  author f = u_id u ∨ role u = "admin" →
  files db !! id = Some f →
  fails env OpFind = false → fails env OpSave = false → fails env OpPopulate = false →
  validate (edited_doc u b f) = true →
  ∃ f', router validate env u (PUT_id_save id b) db
        = (json (JFile (populate db (id, f'))),
           set_files (<[id := f']> (files db)) db)
        ∧ versions f' = versions f ++ [mkVersion (content f) (u_id u)]
        ∧ content f' = body_content b
        ∧ author f' = author f
        ∧ status f' = status f
        ∧ updatedAt f' = now env.
Proof.
  intros Hrole Hown Hf Hfind Hsave Hpop Hvalid.
  exists (saved_doc env u b f). split.
  - rewrite (save_found _ _ _ _ _ f) by done.
    unfold try_catch, bind. rewrite doc_save_resolved by done.
    unfold doc_populate. by rewrite Hpop.
  - by rewrite saved_doc_versions, saved_doc_content, saved_doc_author,
      saved_doc_status.
Qed.

End Writing.

Lemma rejected_write_keeps_store_witness :
  router required_fields (quiet 30 id_spare) alice
    (PUT_id_save id_f1 (mkBody None None)) sample_db
  = (respond 500 (JMessage "Failed to save file"), sample_db)
  ∧ router accept_all (faulty 30 id_spare [OpSave]) root
      (PUT_id id_f1 (mkBody None (Some "fixed"))) sample_db
    = (respond 500 (JMessage "Failed to update file"), sample_db).
Proof.
  split.
  - apply (proj1 (rejected_write_keeps_store required_fields (quiet 30 id_spare) alice
                    id_f1 (mkBody None None) sample_db hello_doc eq_refl eq_refl)).
    + left. reflexivity.
    + left. reflexivity.
    + right. reflexivity.
  - apply (proj2 (rejected_write_keeps_store accept_all (faulty 30 id_spare [OpSave])
                    root id_f1 (mkBody None (Some "fixed")) sample_db hello_doc
                    eq_refl eq_refl)).
    + reflexivity.
    + left. reflexivity.
Defined.

Lemma populate_rejection_after_write_witness :
  router accept_all (faulty 30 id_f9 [OpPopulate]) alice
    (POST_root (mkBody (Some "n.txt") (Some "new"))) sample_db
  = (respond 500 (JMessage "Failed to create file"),
     set_files (<[id_f9 := created_doc (faulty 30 id_f9 [OpPopulate]) alice
                              (mkBody (Some "n.txt") (Some "new"))]>
                  (files sample_db)) sample_db)
  ∧ router accept_all (faulty 30 id_f9 [OpPopulate]) alice
      (PUT_id_save id_f1 (mkBody None (Some "world"))) sample_db
    = (respond 500 (JMessage "Failed to save file"),
       set_files (<[id_f1 := saved_doc (faulty 30 id_f9 [OpPopulate]) alice
                                (mkBody None (Some "world")) hello_doc]>
                    (files sample_db)) sample_db).
Proof.
  split.
  - apply (proj1 (populate_rejection_after_write accept_all
                    (faulty 30 id_f9 [OpPopulate]) alice id_f1
                    (mkBody (Some "n.txt") (Some "new")) sample_db hello_doc
                    eq_refl eq_refl)).
    + left. reflexivity.
    + reflexivity.
    + reflexivity.
  - apply (proj2 (proj2 (populate_rejection_after_write accept_all
                    (faulty 30 id_f9 [OpPopulate]) alice id_f1
                    (mkBody None (Some "world")) sample_db hello_doc
                    eq_refl eq_refl))).
    + left. reflexivity.
    + reflexivity.
    + reflexivity.
    + left. reflexivity.
    + reflexivity.
Defined.

Lemma save_by_author_witness :
  ∃ f', router required_fields (quiet 30 id_spare) alice
          (PUT_id_save id_f1 (mkBody (Some "") (Some "world"))) sample_db
        = (json (JFile (populate sample_db (id_f1, f'))),
           set_files (<[id_f1 := f']> (files sample_db)) sample_db)
        ∧ versions f' = versions hello_doc ++ [mkVersion (content hello_doc) (u_id alice)]
        ∧ content f' = Some "world"
        ∧ author f' = author hello_doc
        ∧ status f' = status hello_doc
        ∧ updatedAt f' = 30%N.
Proof.
  apply (save_by_author required_fields (quiet 30 id_spare) alice id_f1
           (mkBody (Some "") (Some "world")) sample_db hello_doc);
    try reflexivity.
  - left. reflexivity.
  - left. reflexivity.
Defined.

(** ** What a successful write answers and leaves *)

Section Answers.

Variable validate : FileDoc → bool.

Lemma post_root_201_full env u b db r db' :
  router validate env u (POST_root b) db = (r, db') →
  statusCode r = 201%N →
  r = respond 201 (JFile (populate db (fresh_id env, created_doc env u b)))
  ∧ db' = set_files (<[fresh_id env := created_doc env u b]> (files db)) db.
Proof.
  intros Hrun Hcode. unfold_router. case_tests; simpl in *; try discriminate. done.
Qed.

Lemma put_id_200_full env u id b db r db' :
  router validate env u (PUT_id id b) db = (r, db') →
  statusCode r = 200%N →
  ∃ f, files db !! id = Some f
       ∧ r = json (JFile (populate db (id, overwritten_doc env u b f)))
       ∧ db' = set_files (<[id := overwritten_doc env u b f]> (files db)) db.
Proof.
  intros Hrun Hcode. unfold_router. case_tests; simpl in *; try discriminate.
  by eexists.
Qed.

Lemma put_id_save_200_full env u id b db r db' :
  router validate env u (PUT_id_save id b) db = (r, db') →
  statusCode r = 200%N →
  ∃ f, files db !! id = Some f
       ∧ r = json (JFile (populate db (id, saved_doc env u b f)))
       ∧ db' = set_files (<[id := saved_doc env u b f]> (files db)) db.
Proof.
  intros Hrun Hcode. unfold_router. case_tests; simpl in *; try discriminate.
  all: eexists; split; [done|]; unfold saved_doc, edited_doc;
    match goal with H : truthy _ = _ |- _ => by rewrite H end.
Qed.

(** Reading a stored file, with a lookup that the store answers. *)
Lemma get_found env u id db f :
  files db !! id = Some f →
  fails env OpFind = false →
  router validate env u (GET_id id) db = (json (JFile (populate db (id, f))), db).
Proof.
  intros Hf Hfind. unfold router, get_id_handler, try_catch, bind, File_findById.
  by rewrite Hfind, Hf.
Qed.

(** X2. Reading back what was written: after a create that answered 201,
    the read of the new id answers 200 with the very document the create
    returned; after a direct update or a save that answered 200, the read of
    that id gives the very same answer. *)
Theorem write_then_read env u req db r db' env2 u2 :
  router validate env u req db = (r, db') →
  fails env2 OpFind = false →
  (∀ b, req = POST_root b → statusCode r = 201%N →
        router validate env2 u2 (GET_id (fresh_id env)) db' = (json (body r), db'))
  ∧ (∀ id b, req = PUT_id id b ∨ req = PUT_id_save id b → statusCode r = 200%N →
             router validate env2 u2 (GET_id id) db' = (r, db')).
Proof.
  intros Hrun Hfind. split.
  - intros b -> Hcode.
    destruct (post_root_201_full _ _ _ _ _ _ Hrun Hcode) as [-> ->].
    rewrite (get_found _ _ _ _ (created_doc env u b)); [done | | done].
    apply lookup_insert_eq.
  - intros id b [-> | ->] Hcode.
    + destruct (put_id_200_full _ _ _ _ _ _ _ Hrun Hcode) as (f & _ & -> & ->).
      rewrite (get_found _ _ _ _ (overwritten_doc env u b f)); [done | | done].
      apply lookup_insert_eq.
    + destruct (put_id_save_200_full _ _ _ _ _ _ _ Hrun Hcode) as (f & _ & -> & ->).
      rewrite (get_found _ _ _ _ (saved_doc env u b f)); [done | | done].
      apply lookup_insert_eq.
Qed.

(** X10. The name under a save and under a direct update. A save that
    answered 200 with no name or an empty name in the body keeps the name; a
    non-empty name replaces it. A direct update that answered 200 keeps the
    name whatever the body carries. *)
Theorem name_rule env u id b db r db' :
  statusCode r = 200%N →
  (router validate env u (PUT_id_save id b) db = (r, db') →
   ∃ f f', files db !! id = Some f ∧ files db' !! id = Some f'
           ∧ (body_name b = None ∨ body_name b = Some "" → name f' = name f)
           ∧ (∀ n, body_name b = Some n → n ≠ "" → name f' = Some n))
  ∧ (router validate env u (PUT_id id b) db = (r, db') →
     ∃ f f', files db !! id = Some f ∧ files db' !! id = Some f'
             ∧ name f' = name f).
Proof.
  intros Hcode. split; intros Hrun.
  - destruct (put_id_save_200_full _ _ _ _ _ _ _ Hrun Hcode) as (f & Hf & _ & ->).
    exists f, (saved_doc env u b f). split; [done|].
    split; [apply lookup_insert_eq|]. unfold saved_doc, edited_doc. split.
    + by intros [-> | ->].
    + intros n -> Hn. simpl. by rewrite bool_decide_eq_false_2.
  - destruct (put_id_200_full _ _ _ _ _ _ _ Hrun Hcode) as (f & Hf & _ & ->).
    exists f, (overwritten_doc env u b f). split; [done|].
    split; [apply lookup_insert_eq | done].
Qed.

End Answers.

Lemma write_then_read_witness :
  router accept_all (quiet 31 id_spare) bob (GET_id id_f9)
    (router accept_all (quiet 30 id_f9) alice
       (POST_root (mkBody (Some "n.txt") (Some "new"))) sample_db).2
  = (json (body (router accept_all (quiet 30 id_f9) alice
                   (POST_root (mkBody (Some "n.txt") (Some "new"))) sample_db).1),
     (router accept_all (quiet 30 id_f9) alice
        (POST_root (mkBody (Some "n.txt") (Some "new"))) sample_db).2)
  ∧ router accept_all (quiet 31 id_spare) bob (GET_id id_f1)
      (router accept_all (quiet 30 id_spare) alice
         (PUT_id_save id_f1 (mkBody None (Some "world"))) sample_db).2
    = ((router accept_all (quiet 30 id_spare) alice
          (PUT_id_save id_f1 (mkBody None (Some "world"))) sample_db).1,
       (router accept_all (quiet 30 id_spare) alice
          (PUT_id_save id_f1 (mkBody None (Some "world"))) sample_db).2).
Proof.
  split.
  - apply (proj1 (write_then_read accept_all (quiet 30 id_f9) alice
                    (POST_root (mkBody (Some "n.txt") (Some "new"))) sample_db _ _
                    (quiet 31 id_spare) bob (surjective_pairing _) eq_refl)
             (mkBody (Some "n.txt") (Some "new")));
      reflexivity.
  - apply (proj2 (write_then_read accept_all (quiet 30 id_spare) alice
                    (PUT_id_save id_f1 (mkBody None (Some "world"))) sample_db _ _
                    (quiet 31 id_spare) bob (surjective_pairing _) eq_refl)
             id_f1 (mkBody None (Some "world"))).
    + right. reflexivity.
    + reflexivity.
Defined.

Lemma name_rule_witness :
  (∃ f f', files sample_db !! id_f1 = Some f
           ∧ files (router accept_all (quiet 30 id_spare) alice
                      (PUT_id_save id_f1 (mkBody (Some "") (Some "world")))
                      sample_db).2 !! id_f1 = Some f'
           ∧ (Some "" = None ∨ Some "" = Some "" → name f' = name f)
           ∧ (∀ n, Some "" = Some n → n ≠ "" → name f' = Some n))
  ∧ (∃ f f', files sample_db !! id_f1 = Some f
             ∧ files (router accept_all (quiet 30 id_spare) root
                        (PUT_id id_f1 (mkBody (Some "z.txt") (Some "fixed")))
                        sample_db).2 !! id_f1 = Some f'
             ∧ name f' = name f).
Proof.
  split.
  - apply (proj1 (name_rule accept_all (quiet 30 id_spare) alice id_f1
                    (mkBody (Some "") (Some "world")) sample_db
                    (router accept_all (quiet 30 id_spare) alice
                       (PUT_id_save id_f1 (mkBody (Some "") (Some "world")))
                       sample_db).1 _ eq_refl)).
    apply surjective_pairing.
  - apply (proj2 (name_rule accept_all (quiet 30 id_spare) root id_f1
                    (mkBody (Some "z.txt") (Some "fixed")) sample_db
                    (router accept_all (quiet 30 id_spare) root
                       (PUT_id id_f1 (mkBody (Some "z.txt") (Some "fixed")))
                       sample_db).1 _ eq_refl)).
    apply surjective_pairing.
Defined.

(** ** More on listings and lookups *)

Lemma File_find_sorted env (cond : FileDoc → bool) db o db' :
  File_find env cond db = (o, db') →
  match o with
  | Resolved l => Sorted listed_newer_first l
  | Rejected => True
  end.
Proof.
  unfold File_find. destruct (fails env OpFind); intros H; inversion H; subst; [done|].
  apply (Sorted_fmap _ newer_first); [done|]. apply find_result_sorted.
Qed.

Lemma File_find_populated env (cond : FileDoc → bool) db l pf :
  File_find env cond db = (Resolved l, db) →
  pf ∈ l →
  pf_author pf = (λ a, (u_name a, email a)) <$> users db !! author (pf_doc pf).
Proof.
  unfold File_find. destruct (fails env OpFind); intros H; inversion H; subst.
  by intros ([i f] & -> & _)%list_elem_of_fmap.
Qed.

(** X9. With a query that the store answers, the general listing answers
    200 with exactly the stored files whose status is approved, each once,
    each with its author resolved to the name and email of that user (or to
    nothing when there is no such user), and the database is left as it
    was. *)
Theorem list_approved_exact (validate : FileDoc → bool) env u db :
  fails env OpFind = false →
  ∃ l, router validate env u GET_root db = (json (JFiles l), db)
       ∧ NoDup (pf_id <$> l)
       ∧ (∀ id f, (∃ pf, pf ∈ l ∧ pf_id pf = id ∧ pf_doc pf = f)
                  ↔ (files db !! id = Some f ∧ status f = "approved"))
       ∧ (∀ pf, pf ∈ l →
            pf_author pf
            = (λ a, (u_name a, email a)) <$> users db !! author (pf_doc pf)).
Proof.
  intros Hfind.
  destruct (File_find_resolved env (λ f, bool_decide (status f = "approved"))
              db Hfind) as (l & Hrun & Hnodup & Hl).
  exists l. split; [|split; [done|split]].
  - unfold router, get_root_handler, try_catch, bind, ret. by rewrite Hrun.
  - intros id f. split.
    + intros (pf & (f' & Hf' & Hc & ->)%Hl & <- & <-). simpl.
      by apply bool_decide_eq_true in Hc.
    + intros [Hf Ha]. exists (populate db (id, f)). split; [|done].
      apply Hl. exists f. simpl. by rewrite bool_decide_eq_true.
  - intros pf. by apply (File_find_populated _ _ _ _ _ Hrun).
Qed.

Lemma list_approved_exact_witness :
  ∃ l, router accept_all (quiet 70 id_spare) bob GET_root sample_db
       = (json (JFiles l), sample_db)
       ∧ NoDup (pf_id <$> l)
       ∧ (∀ id f, (∃ pf, pf ∈ l ∧ pf_id pf = id ∧ pf_doc pf = f)
                  ↔ (files sample_db !! id = Some f ∧ status f = "approved"))
       ∧ (∀ pf, pf ∈ l →
            pf_author pf
            = (λ a, (u_name a, email a)) <$> users sample_db !! author (pf_doc pf)).
Proof.
  apply (list_approved_exact accept_all (quiet 70 id_spare) bob sample_db).
  reflexivity.
Defined.

(** X16. Both listings come out most recently updated first. *)
Theorem listings_newest_first (validate : FileDoc → bool) env u db :
  Sorted listed_newer_first (listed (router validate env u GET_root db).1)
  ∧ Sorted listed_newer_first (listed (router validate env u GET_my_files db).1).
Proof.
  split; unfold router, get_root_handler, get_my_files_handler, try_catch, bind, ret.
  - destruct (File_find env (λ f, bool_decide (status f = "approved")) db)
      as [[l|] db'] eqn:Hrun; [|constructor].
    apply (File_find_sorted _ _ _ _ _ Hrun).
  - destruct (File_find env (λ f, bool_decide (author f = u_id u)) db)
      as [[l|] db'] eqn:Hrun; [|constructor].
    apply (File_find_sorted _ _ _ _ _ Hrun).
Qed.

(** X17. When the lookup itself rejects, every route that looks a file up
    or lists files answers 500 and writes nothing. *)
Theorem lookup_rejection (validate : FileDoc → bool) env u req db :
  fails env OpFind = true →
  admitted u req →
  (∀ b, req ≠ POST_root b) →
  statusCode (router validate env u req db).1 = 500%N
  ∧ (router validate env u req db).2 = db.
Proof.
  intros Hfind Hrole Hreq.
  destruct req; simpl in Hrole; try (by destruct (Hreq b));
    unfold router; rewrite ?gate_admin, ?gate_editor_admin by auto;
    unfold get_root_handler, get_my_files_handler, get_id_handler, put_id_handler,
      put_id_save_handler, delete_id_handler, try_catch, bind, File_find,
      File_findById;
    by rewrite Hfind.
Qed.

Lemma lookup_rejection_witness :
  statusCode (router accept_all (faulty 70 id_spare [OpFind]) alice
                (PUT_id_save id_f1 (mkBody None (Some "world"))) sample_db).1 = 500%N
  ∧ (router accept_all (faulty 70 id_spare [OpFind]) alice
       (PUT_id_save id_f1 (mkBody None (Some "world"))) sample_db).2 = sample_db.
Proof.
  apply (lookup_rejection accept_all (faulty 70 id_spare [OpFind]) alice
           (PUT_id_save id_f1 (mkBody None (Some "world"))) sample_db).
  - reflexivity.
  - left. reflexivity.
  - discriminate.
Defined.

(** ** Who signs the ledger *)

Section Attribution.

Variable validate : FileDoc → bool.

Lemma serve_saves_by id (saves : list SaveStep) : ∀ db f rs db',
  files db !! id = Some f →
  serve validate (save_request id <$> saves) db = (rs, db') →
  Forall (λ r, statusCode r = 200%N) rs →
  ∃ f', files db' !! id = Some f'
        ∧ updatedBy <$> versions f' =
            (updatedBy <$> versions f) ++ (u_id ∘ step_user <$> saves)
        ∧ author f' = author f
        ∧ Forall (λ s, u_id (step_user s) = author f ∨ role (step_user s) = "admin")
            saves.
Proof.
  induction saves as [|[[[env u] nm] c] saves IH]; intros db f rs db' Hf Hrun Hall.
  - simpl in Hrun. inversion Hrun; subst. exists f.
    split; [done|]. split; [by rewrite app_nil_r|]. by split.
  - change (serve validate (save_request id <$> (env, u, nm, c) :: saves) db)
      with (let '(r, db1) :=
              router validate env u (PUT_id_save id (mkBody nm (Some c))) db in
            let '(rs, db2) := serve validate (save_request id <$> saves) db1 in
            (r :: rs, db2)) in Hrun.
    destruct (router validate env u (PUT_id_save id (mkBody nm (Some c))) db)
      as [r db1] eqn:Hstep.
    destruct (serve validate (save_request id <$> saves) db1) as [rs' db2] eqn:Hrest.
    inversion Hrun; subst. apply Forall_cons in Hall as [Hr Hrs].
    destruct (put_id_save_200 validate _ _ _ _ _ _ _ Hstep Hr) as (f0 & Hf0 & Hown & Hdb1).
    rewrite Hf in Hf0. inversion Hf0; subst f0.
    assert (Hf1 : files db1 !! id = Some (saved_doc env u (mkBody nm (Some c)) f))
      by (rewrite Hdb1; apply lookup_insert_eq).
    destruct (IH _ _ _ _ Hf1 Hrest Hrs) as (f' & Hf' & Hby & Ha & Hsavers).
    rewrite saved_doc_versions, saved_doc_author in *.
    exists f'. split; [done|]. split; [|split; [done|]].
    + rewrite Hby, fmap_app, <- app_assoc. done.
    + constructor; [|done]. simpl. destruct Hown; auto.
Qed.

(** X11. Who signs the ledger. After a create that answered 201 and saves
    that each answered 200, the founding entry carries the creator's id, the
    k-th later entry the id of whoever made the k-th save, the creator is
    still the author, and every one of those saves was made by the author or
    by an admin. *)
Theorem ledger_attribution env0 u0 b0 db0 r0 db1 (saves : list SaveStep) rs dbN :
  router validate env0 u0 (POST_root b0) db0 = (r0, db1) →
  statusCode r0 = 201%N →
  serve validate (save_request (fresh_id env0) <$> saves) db1 = (rs, dbN) →
  Forall (λ r, statusCode r = 200%N) rs →
  ∃ f, files dbN !! fresh_id env0 = Some f
       ∧ updatedBy <$> versions f = u_id u0 :: (u_id ∘ step_user <$> saves)
       ∧ author f = u_id u0
       ∧ Forall (λ s, u_id (step_user s) = u_id u0 ∨ role (step_user s) = "admin")
           saves.
Proof.
  intros Hcreate H201 Hrun Hall.
  destruct (post_root_201 validate _ _ _ _ _ _ Hcreate H201) as [_ Hdb1].
  assert (Hf0 : files db1 !! fresh_id env0 = Some (created_doc env0 u0 b0))
    by (rewrite Hdb1; apply lookup_insert_eq).
  destruct (serve_saves_by _ _ _ _ _ _ Hf0 Hrun Hall) as (f & Hf & Hby & Ha & Hs).
  by exists f.
Qed.

End Attribution.

Lemma ledger_attribution_witness :
  ∃ f, files (serve accept_all
                [save_request id_f1 (quiet 11 id_spare, alice, None, "world");
                 save_request id_f1 (quiet 12 id_spare, root, Some "b.txt", "again")]
                (router accept_all (quiet 10 id_f1) alice
                   (POST_root (mkBody (Some "a.txt") (Some "hello"))) empty_db).2).2
         !! id_f1 = Some f
       ∧ updatedBy <$> versions f = [id_alice; id_alice; id_root]
       ∧ author f = id_alice
       ∧ Forall (λ s, u_id (step_user s) = id_alice ∨ role (step_user s) = "admin")
           [(quiet 11 id_spare, alice, None, "world");
            (quiet 12 id_spare, root, Some "b.txt", "again")].
Proof.
  apply (ledger_attribution accept_all (quiet 10 id_f1) alice
           (mkBody (Some "a.txt") (Some "hello")) empty_db
           (router accept_all (quiet 10 id_f1) alice
              (POST_root (mkBody (Some "a.txt") (Some "hello"))) empty_db).1
           (router accept_all (quiet 10 id_f1) alice
              (POST_root (mkBody (Some "a.txt") (Some "hello"))) empty_db).2
           [(quiet 11 id_spare, alice, None, "world");
            (quiet 12 id_spare, root, Some "b.txt", "again")]
           (serve accept_all
              [save_request id_f1 (quiet 11 id_spare, alice, None, "world");
               save_request id_f1 (quiet 12 id_spare, root, Some "b.txt", "again")]
              (router accept_all (quiet 10 id_f1) alice
                 (POST_root (mkBody (Some "a.txt") (Some "hello"))) empty_db).2).1).
  - apply surjective_pairing.
  - reflexivity.
  - apply surjective_pairing.
  - vm_compute. repeat constructor.
Defined.
